(** * patreon-go: the response denormalisation of [client.go]

    A shallow embedding of the four fetch operations of the Patreon client
    ([GetIdentity], [GetCampaigns], [GetCampaignByID], [GetMemberByID]), of
    the stub [GetMembersByCampaignID] and of the request path ([buildURL],
    [get]), followed by the properties the specification states about them.

    Conventions of the embedding:
    - a Go slice is [option (list A)]: [None] is the nil slice, [Some []] an
      empty non-nil toOne.Data ([append], [len] and [range] treat both alike);
    - a Go [map[string]V] is a [gmap string V]; indexing a missing key gives
      the zero value of [V]; [range] over a map visits the entries in an
      order the language leaves unspecified, which the environment chooses;
    - a pointer to an entity is an optional location of a heap of objects
      (so that entities may refer to each other in cycles); a pointer to a
      plain attribute payload, which nobody mutates, is an optional value;
    - [error] is nil ([None]) or a value;
    - the collaborators outside the package (net/url, net/http,
      encoding/json, strconv) and the declarations of the package that
      [client.go] only uses are the fields of an environment [Env]. *)

From Stdlib Require Import ZArith.
From stdpp Require Import base option list gmap strings fin_maps relations pretty.

(** ** Go values *)

Module Go.

Definition slice (A : Type) : Type := option (list A).

Definition elems {A} (s : slice A) : list A := default [] s.

Definition len {A} (s : slice A) : nat := length (elems s).

(** [append(s, x)]: the result is never the nil slice. *)
Definition append {A} (s : slice A) (x : A) : slice A := Some (elems s ++ [x]).

(** [make([]T, n)]: [n] zero values. *)
Definition make {A} (zero : A) (n : nat) : slice A := Some (replicate n zero).

(** [s[i] = x], for [i] below [len(s)] (the only use in [client.go]). *)
Definition store {A} (s : slice A) (i : nat) (x : A) : slice A :=
  match s with
  | Some l => Some (<[i:=x]> l)
  | None => None
  end.

(** [m[k]]: the zero value when [k] is not a key of [m]. *)
Definition index {V} (zero : V) (m : gmap string V) (k : string) : V := default zero (m !! k).

End Go.

Import Go.

(** ** The heap of entities *)

Definition loc : Type := positive.

(** The kinds of typed entity; [ptr k] is a [*T] for the entity type [T] of
    kind [k], nil being [None]. *)
Inductive kind : Type :=
  KUser | KCampaign | KMember | KTier | KBenefit | KGoal | KAddress | KMedia | KDeliverables.

Definition ptr (k : kind) : Type := option loc.

Definition nil {k : kind} : ptr k := None.

(** Attribute payloads. Their declarations are not part of [client.go]; the
    user's carries the one field the specification's scenario reads, the
    others stay the opaque key-value payload of the wire format. *)
Definition attributes : Type := list (string * string).

Record UserAttributes : Type := { FullName : string; user_rest : attributes }.

Abbreviation CampaignAttributes := attributes.
Abbreviation MemberAttributes := attributes.
Abbreviation TierAttributes := attributes.
Abbreviation BenefitAttributes := attributes.
Abbreviation GoalAttributes := attributes.
Abbreviation AddressAttributes := attributes.

(** The entity types. [User], [Campaign] and [Member] have the fields
    [client.go] assigns; the association fields are those of the type
    declarations of the package. *)

Module User.
Record User : Type := {
  UserAttributes : option UserAttributes;
  ID : string;
  Memberships : slice (ptr KMember);
  Campaign : ptr KCampaign }.
End User.
Abbreviation User := User.User.

Module Campaign.
Record Campaign : Type := {
  ID : string;
  CampaignAttributes : option CampaignAttributes;
  Tiers : slice (ptr KTier);
  Creator : ptr KUser;
  Benefits : slice (ptr KBenefit);
  Goals : slice (ptr KGoal) }.
End Campaign.
Abbreviation Campaign := Campaign.Campaign.

Module Member.
Record Member : Type := {
  ID : string;
  MemberAttributes : option MemberAttributes;
  Address : ptr KAddress;
  Campaign : ptr KCampaign;
  CurrentlyEntitledTiers : slice (ptr KTier);
  User : ptr KUser }.
End Member.
Abbreviation Member := Member.Member.

Module Tier.
Record Tier : Type := {
  TierAttributes : TierAttributes;
  Campaign : ptr KCampaign;
  TierImage : ptr KMedia;
  Benefits : slice (ptr KBenefit) }.
End Tier.
Abbreviation Tier := Tier.Tier.

Module Benefit.
Record Benefit : Type := {
  BenefitAttributes : BenefitAttributes;
  Tiers : slice (ptr KTier);
  Deliverables : slice (ptr KDeliverables);
  Campaign : ptr KCampaign }.
End Benefit.
Abbreviation Benefit := Benefit.Benefit.

Module GoalV2.
Record GoalV2 : Type := {
  GoalAttributes : GoalAttributes;
  Campaign : ptr KCampaign }.
End GoalV2.
Abbreviation GoalV2 := GoalV2.GoalV2.

Module AddressV2.
Record AddressV2 : Type := {
  AddressAttributes : AddressAttributes;
  User : ptr KUser;
  Campaigns : slice (ptr KCampaign) }.
End AddressV2.
Abbreviation AddressV2 := AddressV2.AddressV2.

Inductive Object : Type :=
  | OUser (u : User)
  | OCampaign (c : Campaign)
  | OMember (m : Member)
  | OTier (t : Tier)
  | OBenefit (b : Benefit)
  | OGoal (g : GoalV2)
  | OAddress (a : AddressV2).

Abbreviation Heap := (gmap loc Object).

(** The locations an object refers to, and cycles of such references. *)
Definition ptrs {k} (s : slice (ptr k)) : list loc := omap id (elems s).

Definition refs (o : Object) : list loc :=
  match o with
  | OUser u => ptrs (User.Memberships u) ++ option_list (User.Campaign u)
  | OCampaign c =>
      ptrs (Campaign.Tiers c) ++ option_list (Campaign.Creator c)
        ++ ptrs (Campaign.Benefits c) ++ ptrs (Campaign.Goals c)
  | OMember m =>
      option_list (Member.Address m) ++ option_list (Member.Campaign m)
        ++ ptrs (Member.CurrentlyEntitledTiers m) ++ option_list (Member.User m)
  | OTier t =>
      option_list (Tier.Campaign t) ++ option_list (Tier.TierImage t) ++ ptrs (Tier.Benefits t)
  | OBenefit b =>
      ptrs (Benefit.Tiers b) ++ ptrs (Benefit.Deliverables b) ++ option_list (Benefit.Campaign b)
  | OGoal g => option_list (GoalV2.Campaign g)
  | OAddress a => option_list (AddressV2.User a) ++ ptrs (AddressV2.Campaigns a)
  end.

Definition points_to (h : Heap) (l l' : loc) : Prop :=
  ∃ o, h !! l = Some o ∧ l' ∈ refs o.

Definition cyclic (h : Heap) : Prop := ∃ l, tc (points_to h) l l.

(** ** The wire format, decoded

    The response types are declared outside [client.go]; their fields are
    the ones [client.go] reads. [Data] is a resource identifier; a to-one
    relationship holds a [*Data] (nil for [null]), a to-many one a slice. *)

Record Data : Type := { ID : string; Type_ : string }.

Module toOne.
Record toOne : Type := { Data : option Data }.
End toOne.
Abbreviation toOne := toOne.toOne.

Module toMany.
Record toMany : Type := { Data : slice Data }.
End toMany.
Abbreviation toMany := toMany.toMany.

(** The Included Index: one table per type, from id to entity. *)
Record includes : Type := {
  users : gmap string (ptr KUser);
  campaigns : gmap string (ptr KCampaign);
  memberships : gmap string (ptr KMember);
  tiers : gmap string (ptr KTier);
  benefits : gmap string (ptr KBenefit);
  goals : gmap string (ptr KGoal);
  addresses : gmap string (ptr KAddress) }.

Module identityResponse.
Record relationships : Type := { Campaign : toOne }.
Record data : Type := {
  ID : string;
  Attributes : option UserAttributes;
  Relationships : relationships }.
Record identityResponse : Type := { Data : data; Included : includes }.
End identityResponse.
Abbreviation identityResponse := identityResponse.identityResponse.

Module campaignResponse.
Record relationships : Type := {
  Creator : toOne;
  Benefits : toMany;
  Goals : toMany;
  Tiers : toMany }.
Record data : Type := {
  ID : string;
  Attributes : option CampaignAttributes;
  Relationships : relationships }.
Record campaignResponse : Type := { Data : data; Included : includes }.
End campaignResponse.
Abbreviation campaignResponse := campaignResponse.campaignResponse.

Module campaignListResponse.
Record campaignListResponse : Type := {
  Data : slice campaignResponse.data;
  Included : includes }.
End campaignListResponse.
Abbreviation campaignListResponse := campaignListResponse.campaignListResponse.

(** Modelled from the spec: the relationship block [currently_entitled_tiers]
    of a member, which [client.go] never reads and whose declaration is not
    in the sources. [None] is the block absent entirely, [Some r] the block
    present, with [toMany.Data r] its identifier list (empty for "associated with
    nothing"). *)
Module memberResponse.
Record relationships : Type := {
  Address : toOne;
  Campaign : toOne;
  User : toOne;
  CurrentlyEntitledTiers : option toMany }.
Record data : Type := {
  ID : string;
  Attributes : option MemberAttributes;
  Relationships : relationships }.
Record memberResponse : Type := { Data : data; Included : includes }.
End memberResponse.
Abbreviation memberResponse := memberResponse.memberResponse.

(** Modelled from the spec: the structured error list of a failed request,
    items of the shape [{code, title, detail}]; the declaration of
    [ErrorResponse] is not in the sources. *)
Record ErrorItem : Type := { Code : Z; Title : string; Detail : string }.

Record ErrorResponse : Type := { Errors : slice ErrorItem }.

(** Zero values, as [var resp T] declares them. *)
Class Zero (T : Type) : Type := zero : T.

#[global] Instance zero_includes : Zero includes :=
  {| users := ∅; campaigns := ∅; memberships := ∅; tiers := ∅;
     benefits := ∅; goals := ∅; addresses := ∅ |}.

#[global] Instance zero_identityResponse : Zero identityResponse :=
  {| identityResponse.Data :=
       {| identityResponse.ID := "";
          identityResponse.Attributes := None;
          identityResponse.Relationships :=
            {| identityResponse.Campaign := {| toOne.Data := None |} |} |};
     identityResponse.Included := zero |}.

#[global] Instance zero_campaignData : Zero campaignResponse.data :=
  {| campaignResponse.ID := "";
     campaignResponse.Attributes := None;
     campaignResponse.Relationships :=
       {| campaignResponse.Creator := {| toOne.Data := None |};
          campaignResponse.Benefits := {| toMany.Data := None |};
          campaignResponse.Goals := {| toMany.Data := None |};
          campaignResponse.Tiers := {| toMany.Data := None |} |} |}.

#[global] Instance zero_campaignResponse : Zero campaignResponse :=
  {| campaignResponse.Data := zero; campaignResponse.Included := zero |}.

#[global] Instance zero_campaignListResponse : Zero campaignListResponse :=
  {| campaignListResponse.Data := None; campaignListResponse.Included := zero |}.

#[global] Instance zero_memberResponse : Zero memberResponse :=
  {| memberResponse.Data :=
       {| memberResponse.ID := "";
          memberResponse.Attributes := None;
          memberResponse.Relationships :=
            {| memberResponse.Address := {| toOne.Data := None |};
               memberResponse.Campaign := {| toOne.Data := None |};
               memberResponse.User := {| toOne.Data := None |};
               memberResponse.CurrentlyEntitledTiers := None |} |};
     memberResponse.Included := zero |}.

#[global] Instance zero_ErrorResponse : Zero ErrorResponse := {| Errors := None |}.

(** ** Errors, collaborators and effects *)

(** An error of a collaborator: URL parsing, the HTTP transport, the JSON
    decoder. *)
Inductive liberror : Type :=
  | UrlError (msg : string)
  | TransportError (msg : string)
  | DecodeError (msg : string).

(** A Go [error] value of this package: a collaborator's error passed on
    unchanged, or an [ErrorResponse] returned as the error (the
    specification's APIError). *)
Inductive error : Type :=
  | Lib (e : liberror)
  | APIError (errs : ErrorResponse).

Inductive result (A : Type) : Type :=
  | Ok (a : A)
  | Err (e : liberror).
Arguments Ok {A} a.
Arguments Err {A} e.

(** [url.URL]: the query string, and everything else as parsed. *)
Record URL : Type := { parsed : string; RawQuery : string }.

Definition setRawQuery (u : URL) (q : string) : URL :=
  {| parsed := parsed u; RawQuery := q |}.

Record Response : Type := { StatusCode : Z; Body : string }.

Definition StatusOK : Z := 200.

(** The request options [buildURL] reads. *)
Module options.
Record options : Type := {
  include : string;
  fields : gmap string string;
  size : Z;
  cursor : string }.
End options.
Abbreviation options := options.options.

Definition RequestOpt : Type := options → options.

(** [json.NewDecoder(body).Decode(&v)]: the value [v] as the decoder leaves
    it, the decoder's error, and the heap with the entities it allocated. *)
Class Unmarshal (T : Type) : Type :=
  Decode : string → T → Heap → T * option liberror * Heap.

Class Env : Type := {
  (** net/url, strconv *)
  ParseRequestURI : string → result URL;
  URL_String : URL → string;
  Values_Encode : gmap string string → string;
  Itoa : Z → string;
  (** the options of the package, declared outside [client.go] *)
  getOptions : list RequestOpt → options;
  (** the order in which [range] visits a map *)
  range : ∀ {V : Type}, gmap string V → list (string * V);
  range_perm : ∀ (V : Type) (m : gmap string V), range m ≡ₚ map_to_list m;
  (** encoding/json, with the decoding methods of the response types *)
  json_ErrorResponse :: Unmarshal ErrorResponse;
  json_identityResponse :: Unmarshal identityResponse;
  json_campaignResponse :: Unmarshal campaignResponse;
  json_campaignListResponse :: Unmarshal campaignListResponse;
  json_memberResponse :: Unmarshal memberResponse }.

(** [Client]: the HTTP client is the function its [Get] computes. *)
Record Client : Type := {
  httpClient : string → result Response;
  baseURL : string }.

(** The state a call acts on: the requests sent so far, oldest first, and
    the heap. *)
Record World : Type := { requests : list string; heap : Heap }.

(** The world after the request [addr], with the heap [h]. *)
Definition sent (addr : string) (h : Heap) (w : World) : World :=
  {| requests := requests w ++ [addr]; heap := h |}.

Definition M (A : Type) : Type := World → A * World.

#[global] Instance M_ret : MRet M := λ A (a : A) w, (a, w).

#[global] Instance M_bind : MBind M := λ A B (f : A → M B) (m : M A) w,
  let '(a, w') := m w in f a w'.

(** [c.httpClient.Get(addr)] *)
Definition httpGet (c : Client) (addr : string) : M (result Response) :=
  λ w, (httpClient c addr, {| requests := requests w ++ [addr]; heap := heap w |}).

Definition decode {T} `{!Unmarshal T} (body : string) (v : T) : M (T * option liberror) :=
  λ w, let '(v', err, h) := Decode body v (heap w) in
       ((v', err), {| requests := requests w; heap := h |}).

(** ** The request path *)

Section client.
Context `{!Env}.

Definition buildURL (c : Client) (path : string) (opts : list RequestOpt) : result string :=
  let cfg := getOptions opts in
  match ParseRequestURI (baseURL c +:+ path) with
  | Err err => Err err
  | Ok u =>
      let q : gmap string string := ∅ in
      let q :=
        if decide (options.include cfg ≠ "") then <["include" := options.include cfg]> q
        else q in
      let q := foldl (λ q '(resource, fields),
                        <["fields[" +:+ resource +:+ "]" := fields]> q)
                     q (range (options.fields cfg)) in
      let q :=
        if decide (options.size cfg ≠ 0%Z) then <["page[count]" := Itoa (options.size cfg)]> q
        else q in
      let q :=
        if decide (options.cursor cfg ≠ "") then <["page[cursor]" := options.cursor cfg]> q
        else q in
      Ok (URL_String (setRawQuery u (Values_Encode q)))
  end.

(** [get] fills [v] and returns an error; here it returns [v] as it leaves
    it, with the error. *)
Definition get {T} `{!Unmarshal T} (c : Client) (path : string) (v : T)
    (opts : list RequestOpt) : M (T * option error) :=
  match buildURL c path opts with
  | Err err => mret (v, Some (Lib err))
  | Ok addr =>
      resp ← httpGet c addr;
      match resp with
      | Err err => mret (v, Some (Lib err))
      | Ok resp =>
          if decide (StatusCode resp ≠ StatusOK) then
            '(errs, err) ← decode (Body resp) (zero : ErrorResponse);
            match err with
            | Some err => mret (v, Some (Lib err))
            | None => mret (v, Some (APIError errs))
            end
          else
            '(v, err) ← decode (Body resp) v;
            mret (v, Lib <$> err)
      end
  end.

End client.

(** ** Field assignments *)

Definition setUserCampaign (u : User) (p : ptr KCampaign) : User :=
  {| User.UserAttributes := User.UserAttributes u; User.ID := User.ID u;
     User.Memberships := User.Memberships u; User.Campaign := p |}.

Definition setMemberships (u : User) (s : slice (ptr KMember)) : User :=
  {| User.UserAttributes := User.UserAttributes u; User.ID := User.ID u;
     User.Memberships := s; User.Campaign := User.Campaign u |}.

Definition setCampaignAttributes (c : Campaign) (a : option CampaignAttributes) : Campaign :=
  {| Campaign.ID := Campaign.ID c; Campaign.CampaignAttributes := a;
     Campaign.Tiers := Campaign.Tiers c; Campaign.Creator := Campaign.Creator c;
     Campaign.Benefits := Campaign.Benefits c; Campaign.Goals := Campaign.Goals c |}.

Definition setCreator (c : Campaign) (p : ptr KUser) : Campaign :=
  {| Campaign.ID := Campaign.ID c; Campaign.CampaignAttributes := Campaign.CampaignAttributes c;
     Campaign.Tiers := Campaign.Tiers c; Campaign.Creator := p;
     Campaign.Benefits := Campaign.Benefits c; Campaign.Goals := Campaign.Goals c |}.

Definition setBenefits (c : Campaign) (s : slice (ptr KBenefit)) : Campaign :=
  {| Campaign.ID := Campaign.ID c; Campaign.CampaignAttributes := Campaign.CampaignAttributes c;
     Campaign.Tiers := Campaign.Tiers c; Campaign.Creator := Campaign.Creator c;
     Campaign.Benefits := s; Campaign.Goals := Campaign.Goals c |}.

Definition setGoals (c : Campaign) (s : slice (ptr KGoal)) : Campaign :=
  {| Campaign.ID := Campaign.ID c; Campaign.CampaignAttributes := Campaign.CampaignAttributes c;
     Campaign.Tiers := Campaign.Tiers c; Campaign.Creator := Campaign.Creator c;
     Campaign.Benefits := Campaign.Benefits c; Campaign.Goals := s |}.

Definition setTiers (c : Campaign) (s : slice (ptr KTier)) : Campaign :=
  {| Campaign.ID := Campaign.ID c; Campaign.CampaignAttributes := Campaign.CampaignAttributes c;
     Campaign.Tiers := s; Campaign.Creator := Campaign.Creator c;
     Campaign.Benefits := Campaign.Benefits c; Campaign.Goals := Campaign.Goals c |}.

Definition setMemberAttributes (m : Member) (a : option MemberAttributes) : Member :=
  {| Member.ID := Member.ID m; Member.MemberAttributes := a;
     Member.Address := Member.Address m; Member.Campaign := Member.Campaign m;
     Member.CurrentlyEntitledTiers := Member.CurrentlyEntitledTiers m;
     Member.User := Member.User m |}.

Definition setAddress (m : Member) (p : ptr KAddress) : Member :=
  {| Member.ID := Member.ID m; Member.MemberAttributes := Member.MemberAttributes m;
     Member.Address := p; Member.Campaign := Member.Campaign m;
     Member.CurrentlyEntitledTiers := Member.CurrentlyEntitledTiers m;
     Member.User := Member.User m |}.

Definition setMemberCampaign (m : Member) (p : ptr KCampaign) : Member :=
  {| Member.ID := Member.ID m; Member.MemberAttributes := Member.MemberAttributes m;
     Member.Address := Member.Address m; Member.Campaign := p;
     Member.CurrentlyEntitledTiers := Member.CurrentlyEntitledTiers m;
     Member.User := Member.User m |}.

Definition setMemberUser (m : Member) (p : ptr KUser) : Member :=
  {| Member.ID := Member.ID m; Member.MemberAttributes := Member.MemberAttributes m;
     Member.Address := Member.Address m; Member.Campaign := Member.Campaign m;
     Member.CurrentlyEntitledTiers := Member.CurrentlyEntitledTiers m;
     Member.User := p |}.

Definition setCurrentlyEntitledTiers (m : Member) (s : slice (ptr KTier)) : Member :=
  {| Member.ID := Member.ID m; Member.MemberAttributes := Member.MemberAttributes m;
     Member.Address := Member.Address m; Member.Campaign := Member.Campaign m;
     Member.CurrentlyEntitledTiers := s;
     Member.User := Member.User m |}.

(** ** The fetch operations *)

Section fetch.
Context `{!Env}.

Definition GetIdentity (c : Client) (opts : list RequestOpt) : M (option User * option error) :=
  '(resp, err) ← get c "/api/oauth2/v2/identity" (zero : identityResponse) opts;
  match err with
  | Some err => mret (None, Some err)
  | None =>
      let data := identityResponse.Data resp in
      let included := identityResponse.Included resp in
      let user :=
        {| User.ID := identityResponse.ID data;
           User.UserAttributes := identityResponse.Attributes data;
           User.Memberships := None;
           User.Campaign := nil |} in
      let user :=
        match toOne.Data (identityResponse.Campaign (identityResponse.Relationships data)) with
        | Some d => setUserCampaign user (index nil (campaigns included) (ID d))
        | None => user
        end in
      let user :=
        foldl (λ user '(_, value), setMemberships user (append (User.Memberships user) value))
              user (range (memberships included)) in
      mret (Some user, None)
  end.

(** The body of the loop of [GetCampaigns], which [GetCampaignByID] repeats
    for its single resource. *)
Definition GetCampaigns_item (included : includes) (item : campaignResponse.data) : Campaign :=
  let campaign :=
    {| Campaign.ID := campaignResponse.ID item;
       Campaign.CampaignAttributes := None;
       Campaign.Tiers := None;
       Campaign.Creator := nil;
       Campaign.Benefits := None;
       Campaign.Goals := None |} in
  let campaign :=
    match campaignResponse.Attributes item with
    | Some a => setCampaignAttributes campaign (Some a)
    | None => campaign
    end in
  let relationships := campaignResponse.Relationships item in
  let campaign :=
    match toOne.Data (campaignResponse.Creator relationships) with
    | Some d => setCreator campaign (index nil (users included) (ID d))
    | None => campaign
    end in
  let campaign :=
    foldl (λ campaign relation,
             setBenefits campaign
               (append (Campaign.Benefits campaign) (index nil (benefits included) (ID relation))))
          campaign (elems (toMany.Data (campaignResponse.Benefits relationships))) in
  let campaign :=
    foldl (λ campaign relation,
             setGoals campaign
               (append (Campaign.Goals campaign) (index nil (goals included) (ID relation))))
          campaign (elems (toMany.Data (campaignResponse.Goals relationships))) in
  let campaign :=
    foldl (λ campaign relation,
             setTiers campaign
               (append (Campaign.Tiers campaign) (index nil (tiers included) (ID relation))))
          campaign (elems (toMany.Data (campaignResponse.Tiers relationships))) in
  campaign.

Definition GetCampaigns (c : Client) (opts : list RequestOpt)
    : M (slice (option Campaign) * option error) :=
  '(resp, err) ← get c "/api/oauth2/v2/campaigns" (zero : campaignListResponse) opts;
  match err with
  | Some err => mret (None, Some err)
  | None =>
      let data := campaignListResponse.Data resp in
      let campaigns : slice (option Campaign) := make None (len data) in
      let campaigns :=
        foldl (λ campaigns '(idx, item),
                 store campaigns idx
                   (Some (GetCampaigns_item (campaignListResponse.Included resp) item)))
              campaigns (imap pair (elems data)) in
      mret (campaigns, None)
  end.

Definition GetCampaignByID (c : Client) (id : string) (opts : list RequestOpt)
    : M (option Campaign * option error) :=
  '(resp, err) ← get c ("/api/oauth2/v2/campaigns/" +:+ id) (zero : campaignResponse) opts;
  match err with
  | Some err => mret (None, Some err)
  | None =>
      let campaign :=
        {| Campaign.ID := campaignResponse.ID (campaignResponse.Data resp);
           Campaign.CampaignAttributes := None;
           Campaign.Tiers := None;
           Campaign.Creator := nil;
           Campaign.Benefits := None;
           Campaign.Goals := None |} in
      let campaign :=
        match campaignResponse.Attributes (campaignResponse.Data resp) with
        | Some a => setCampaignAttributes campaign (Some a)
        | None => campaign
        end in
      let relationships := campaignResponse.Relationships (campaignResponse.Data resp) in
      let included := campaignResponse.Included resp in
      let campaign :=
        match toOne.Data (campaignResponse.Creator relationships) with
        | Some d => setCreator campaign (index nil (users included) (ID d))
        | None => campaign
        end in
      let campaign :=
        foldl (λ campaign relation,
                 setBenefits campaign
                   (append (Campaign.Benefits campaign)
                           (index nil (benefits included) (ID relation))))
              campaign (elems (toMany.Data (campaignResponse.Benefits relationships))) in
      let campaign :=
        foldl (λ campaign relation,
                 setGoals campaign
                   (append (Campaign.Goals campaign) (index nil (goals included) (ID relation))))
              campaign (elems (toMany.Data (campaignResponse.Goals relationships))) in
      let campaign :=
        foldl (λ campaign relation,
                 setTiers campaign
                   (append (Campaign.Tiers campaign) (index nil (tiers included) (ID relation))))
              campaign (elems (toMany.Data (campaignResponse.Tiers relationships))) in
      mret (Some campaign, None)
  end.

Definition GetMembersByCampaignID (c : Client) (id : string) (opts : list RequestOpt)
    : M (slice (option Member) * option error) :=
  mret (None, None).

Definition GetMemberByID (c : Client) (id : string) (opts : list RequestOpt)
    : M (option Member * option error) :=
  '(resp, err) ← get c ("/api/oauth2/v2/members/" +:+ id) (zero : memberResponse) opts;
  match err with
  | Some err => mret (None, Some err)
  | None =>
      let member :=
        {| Member.ID := memberResponse.ID (memberResponse.Data resp);
           Member.MemberAttributes := None;
           Member.Address := nil;
           Member.Campaign := nil;
           Member.CurrentlyEntitledTiers := None;
           Member.User := nil |} in
      let member :=
        match memberResponse.Attributes (memberResponse.Data resp) with
        | Some a => setMemberAttributes member (Some a)
        | None => member
        end in
      let relationships := memberResponse.Relationships (memberResponse.Data resp) in
      let included := memberResponse.Included resp in
      let member :=
        match toOne.Data (memberResponse.Address relationships) with
        | Some d => setAddress member (index nil (addresses included) (ID d))
        | None => member
        end in
      let member :=
        match toOne.Data (memberResponse.Campaign relationships) with
        | Some d => setMemberCampaign member (index nil (campaigns included) (ID d))
        | None => member
        end in
      let member :=
        match toOne.Data (memberResponse.User relationships) with
        | Some d => setMemberUser member (index nil (users included) (ID d))
        | None => member
        end in
      let member :=
        foldl (λ member '(_, item),
                 setCurrentlyEntitledTiers member
                   (append (Member.CurrentlyEntitledTiers member) item))
              member (range (tiers included)) in
      mret (Some member, None)
  end.

End fetch.

(** ** The Included Index, as the specification builds it *)

(** A raw resource of the wire format: identifier, attribute payload and
    relationships by name. *)
Record RawResource : Type := {
  raw_type : string;
  raw_id : string;
  raw_attributes : attributes;
  raw_relationships : list (string * (toOne + toMany)) }.

Fixpoint attr (a : attributes) (key : string) : string :=
  match a with
  | [] => ""
  | (k, v) :: a => if decide (k = key) then v else attr a key
  end.

(** Modelled from the spec: the type-directed decoding of one included
    resource (section 4.1; the decoding methods of the response types are
    not in the sources). The entity has its attributes and no resolved
    reference; an unrecognised type tag gives no entity. *)
Definition decodeEntity (r : RawResource) : option Object :=
  let a := raw_attributes r in
  if decide (raw_type r = "user") then
    Some (OUser {| User.UserAttributes :=
                     Some {| FullName := attr a "full_name"; user_rest := a |};
                   User.ID := raw_id r; User.Memberships := None; User.Campaign := nil |})
  else if decide (raw_type r = "campaign") then
    Some (OCampaign {| Campaign.ID := raw_id r; Campaign.CampaignAttributes := Some a;
                       Campaign.Tiers := None; Campaign.Creator := nil;
                       Campaign.Benefits := None; Campaign.Goals := None |})
  else if decide (raw_type r = "member") then
    Some (OMember {| Member.ID := raw_id r; Member.MemberAttributes := Some a;
                     Member.Address := nil; Member.Campaign := nil;
                     Member.CurrentlyEntitledTiers := None; Member.User := nil |})
  else if decide (raw_type r = "tier") then
    Some (OTier {| Tier.TierAttributes := a; Tier.Campaign := nil;
                   Tier.TierImage := nil; Tier.Benefits := None |})
  else if decide (raw_type r = "benefit") then
    Some (OBenefit {| Benefit.BenefitAttributes := a; Benefit.Tiers := None;
                      Benefit.Deliverables := None; Benefit.Campaign := nil |})
  else if decide (raw_type r = "goal") then
    Some (OGoal {| GoalV2.GoalAttributes := a; GoalV2.Campaign := nil |})
  else if decide (raw_type r = "address") then
    Some (OAddress {| AddressV2.AddressAttributes := a; AddressV2.User := nil;
                      AddressV2.Campaigns := None |})
  else None.

(** [index[type][id] = entity], a later entry replacing an earlier one. *)
Definition indexInsert (idx : includes) (o : Object) (id : string) (l : loc) : includes :=
  let p : option loc := Some l in
  match o with
  | OUser _ =>
      {| users := <[id:=p]> (users idx); campaigns := campaigns idx;
         memberships := memberships idx; tiers := tiers idx; benefits := benefits idx;
         goals := goals idx; addresses := addresses idx |}
  | OCampaign _ =>
      {| users := users idx; campaigns := <[id:=p]> (campaigns idx);
         memberships := memberships idx; tiers := tiers idx; benefits := benefits idx;
         goals := goals idx; addresses := addresses idx |}
  | OMember _ =>
      {| users := users idx; campaigns := campaigns idx;
         memberships := <[id:=p]> (memberships idx); tiers := tiers idx;
         benefits := benefits idx; goals := goals idx; addresses := addresses idx |}
  | OTier _ =>
      {| users := users idx; campaigns := campaigns idx;
         memberships := memberships idx; tiers := <[id:=p]> (tiers idx);
         benefits := benefits idx; goals := goals idx; addresses := addresses idx |}
  | OBenefit _ =>
      {| users := users idx; campaigns := campaigns idx;
         memberships := memberships idx; tiers := tiers idx;
         benefits := <[id:=p]> (benefits idx); goals := goals idx;
         addresses := addresses idx |}
  | OGoal _ =>
      {| users := users idx; campaigns := campaigns idx;
         memberships := memberships idx; tiers := tiers idx; benefits := benefits idx;
         goals := <[id:=p]> (goals idx); addresses := addresses idx |}
  | OAddress _ =>
      {| users := users idx; campaigns := campaigns idx;
         memberships := memberships idx; tiers := tiers idx; benefits := benefits idx;
         goals := goals idx; addresses := <[id:=p]> (addresses idx) |}
  end.

(** Modelled from the spec: [buildIndex] (section 4.1), phase one of the
    two-phase design; the entities are allocated at fresh locations of the
    heap. *)
Definition buildIndex (included : list RawResource) (h : Heap) : includes * Heap :=
  foldl (λ '(idx, h) r,
           match decodeEntity r with
           | Some o =>
               let l : loc := fresh (dom h) in
               (indexInsert idx o (raw_id r) l, <[l:=o]> h)
           | None => (idx, h)
           end)
        (zero, h) included.

(** ** Reading an assembled entity *)

Definition derefUser (h : Heap) (p : ptr KUser) : option User :=
  match p with
  | Some l => match h !! l with Some (OUser u) => Some u | _ => None end
  | None => None
  end.

(** [campaign.Creator.FullName], when both pointers on the way are set. *)
Definition Creator_FullName (h : Heap) (c : Campaign) : option string :=
  match derefUser h (Campaign.Creator c) with
  | Some u => FullName <$> User.UserAttributes u
  | None => None
  end.

(** ** A canned server

    An environment and a client for running the operations on concrete
    documents: URLs parse, the transport answers every request with one
    fixed response, and each decoder is a table from bodies to decoded
    values (a body outside the table is a syntax error). *)

Definition table (T : Type) : Type := string → Heap → option (T * Heap).

Definition tableDecode {T} (t : table T) : Unmarshal T :=
  λ body v h,
    match t body h with
    | Some (v', h') => (v', None, h')
    | None => (v, Some (DecodeError "invalid character"), h)
    end.

Definition noTable {T} : table T := λ _ _, None.

Definition oneBody {T} (body : string) (v : T) : table T :=
  λ b h, if decide (b = body) then Some (v, h) else None.

Definition cannedEnv (te : table ErrorResponse) (ti : table identityResponse)
    (tc : table campaignResponse) (tl : table campaignListResponse)
    (tm : table memberResponse) : Env :=
  {| ParseRequestURI := λ s, Ok {| parsed := s; RawQuery := "" |};
     URL_String := λ u,
       if decide (RawQuery u = "") then parsed u else parsed u +:+ "?" +:+ RawQuery u;
     Values_Encode := λ q,
       foldr (λ '(k, v) s, k +:+ "=" +:+ v +:+ "&" +:+ s) "" (map_to_list q);
     Itoa := λ n, pretty n;
     getOptions := λ opts,
       foldl (λ cfg (f : RequestOpt), f cfg)
             {| options.include := ""; options.fields := ∅;
                options.size := 0; options.cursor := "" |} opts;
     range := λ V m, map_to_list m;
     range_perm := λ V m, reflexivity (map_to_list m);
     json_ErrorResponse := tableDecode te;
     json_identityResponse := tableDecode ti;
     json_campaignResponse := tableDecode tc;
     json_campaignListResponse := tableDecode tl;
     json_memberResponse := tableDecode tm |}.

Definition cannedClient (status : Z) (body : string) : Client :=
  {| httpClient := λ _, Ok {| StatusCode := status; Body := body |};
     baseURL := "https://www.patreon.com" |}.

Definition emptyWorld : World := {| requests := []; heap := ∅ |}.

(** ** Documents for the canned server *)

Definition campaignDocument (body : string) (data : campaignResponse.data)
    (included : list RawResource) : table campaignResponse :=
  λ b h,
    if decide (b = body) then
      let '(idx, h') := buildIndex included h in
      Some ({| campaignResponse.Data := data; campaignResponse.Included := idx |}, h')
    else None.

Definition memberDocument (body : string) (data : memberResponse.data)
    (included : list RawResource) : table memberResponse :=
  λ b h,
    if decide (b = body) then
      let '(idx, h') := buildIndex included h in
      Some ({| memberResponse.Data := data; memberResponse.Included := idx |}, h')
    else None.

Definition campaignEnv (t : table campaignResponse) : Env :=
  cannedEnv noTable noTable t noTable noTable.

Definition memberEnv (t : table memberResponse) : Env :=
  cannedEnv noTable noTable noTable noTable t.

Definition resource (type id : string) (a : attributes) : RawResource :=
  {| raw_type := type; raw_id := id; raw_attributes := a; raw_relationships := [] |}.

Definition ref (type id : string) : Data := {| ID := id; Type_ := type |}.

Definition campaignData (id : string) (creator : option Data)
    (benefits goals tiers : slice Data) : campaignResponse.data :=
  {| campaignResponse.ID := id;
     campaignResponse.Attributes := None;
     campaignResponse.Relationships :=
       {| campaignResponse.Creator := {| toOne.Data := creator |};
          campaignResponse.Benefits := {| toMany.Data := benefits |};
          campaignResponse.Goals := {| toMany.Data := goals |};
          campaignResponse.Tiers := {| toMany.Data := tiers |} |} |}.

Definition danglingBenefitBody : string :=
  "{data:{type:campaign,id:1,relationships:{benefits:{data:[a,b,c]}}}}".

(** A campaign with the benefits [a, b, c], of which [b] is not included. *)
Definition danglingBenefit : table campaignResponse :=
  campaignDocument danglingBenefitBody
    (campaignData "1" None
       (Some [ref "benefit" "a"; ref "benefit" "b"; ref "benefit" "c"]) None None)
    [resource "benefit" "a" []; resource "benefit" "c" []].

Definition entitledToNothingBody : string :=
  "{data:{type:member,id:7,relationships:{currently_entitled_tiers:{data:[]}}}}".

(** A member whose block [currently_entitled_tiers] is present and empty,
    in a document that includes one tier. *)
Definition entitledToNothing : table memberResponse :=
  memberDocument entitledToNothingBody
    {| memberResponse.ID := "7";
       memberResponse.Attributes := None;
       memberResponse.Relationships :=
         {| memberResponse.Address := {| toOne.Data := None |};
            memberResponse.Campaign := {| toOne.Data := None |};
            memberResponse.User := {| toOne.Data := None |};
            memberResponse.CurrentlyEntitledTiers := Some {| toMany.Data := Some [] |} |} |}
    [resource "tier" "gold" []].

Definition tiersNullBody : string :=
  "{data:{type:campaign,id:1,relationships:{tiers:{data:null}}}}".

(** Two campaigns, one with [tiers: {data: null}], one with
    [tiers: {data: []}]. *)
Definition tiersNull : table campaignResponse :=
  campaignDocument tiersNullBody
    (campaignData "1" None None None None) [].

Definition tiersEmptyBody : string :=
  "{data:{type:campaign,id:1,relationships:{tiers:{data:[]}}}}".

Definition tiersEmpty : table campaignResponse :=
  campaignDocument tiersEmptyBody
    (campaignData "1" None None None (Some [])) [].

Definition creatorAliceBody : string :=
  "{data:{type:campaign,id:1,relationships:{creator:{data:{type:user,id:9}}}}}".

(** The scenario of the specification: a campaign whose creator is the
    included user 9, Alice; and the same with nothing included. *)
Definition creatorAlice : table campaignResponse :=
  campaignDocument creatorAliceBody
    (campaignData "1" (Some (ref "user" "9")) None None None)
    [resource "user" "9" [("full_name", "Alice")]].


(** The error scenario of the specification. *)
Definition invalidToken : ErrorResponse :=
  {| Errors := Some [ {| Code := 1; Title := "invalid_token"; Detail := "" |} ] |}.

Definition errorEnv (t : table ErrorResponse) : Env :=
  cannedEnv t noTable noTable noTable noTable.

(** A campaign and its tier that refer to each other: the decoder leaves
    the campaign 1 at location 1 and the tier T at location 2, each with
    the pointer to the other. *)
Definition cycleHeap : Heap :=
  {[ 1%positive :=
       OCampaign {| Campaign.ID := "1"; Campaign.CampaignAttributes := None;
                    Campaign.Tiers := Some [Some 2%positive]; Campaign.Creator := nil;
                    Campaign.Benefits := None; Campaign.Goals := None |};
     2%positive :=
       OTier {| Tier.TierAttributes := []; Tier.Campaign := Some 1%positive;
                Tier.TierImage := nil; Tier.Benefits := None |} ]}.

Definition cycleBody : string :=
  "{data:{type:campaign,id:1,relationships:{tiers:{data:[T]}}}}".

Definition cycleDocument : table campaignResponse :=
  λ b h,
    if decide (b = cycleBody) then
      Some ({| campaignResponse.Data :=
                 campaignData "1" None None None (Some [ref "tier" "T"]);
               campaignResponse.Included :=
                 {| users := ∅; campaigns := {[ "1" := Some 1%positive ]};
                    memberships := ∅; tiers := {[ "T" := Some 2%positive ]};
                    benefits := ∅; goals := ∅; addresses := ∅ |} |},
            cycleHeap)
    else None.

Definition invalidTokenBody : string := "{errors:[{code:1,title:invalid_token}]}".

Definition badGatewayBody : string := "<html><body>502 Bad Gateway</body></html>".

(** An identity document: no relationships block at all, two memberships
    included. *)
Definition identityBody : string :=
  "{data:{type:user,id:5},included:[{type:member,id:m1},{type:member,id:m2}]}".

Definition twoMemberships : table identityResponse :=
  λ b h,
    if decide (b = identityBody) then
      let '(idx, h') := buildIndex [resource "member" "m1" []; resource "member" "m2" []] h in
      Some ({| identityResponse.Data :=
                 {| identityResponse.ID := "5";
                    identityResponse.Attributes := None;
                    identityResponse.Relationships :=
                      {| identityResponse.Campaign := {| toOne.Data := None |} |} |};
               identityResponse.Included := idx |}, h')
    else None.

Definition identityEnv (t : table identityResponse) : Env :=
  cannedEnv noTable t noTable noTable noTable.

(** ** What the loops compute *)

(** A field after a loop of [append]s of the values [l]: untouched when the
    loop body never ran. *)
Definition grow {A} (s : slice A) (l : list A) : slice A :=
  match l with
  | [] => s
  | _ => Some (elems s ++ l)
  end.

(** The values of a to-many relationship, one per identifier. *)
Definition slots {k} (m : gmap string (ptr k)) (rel : toMany) : list (ptr k) :=
  (λ d, index nil m (ID d)) <$> elems (toMany.Data rel).

(** The value of a to-one relationship. *)
Definition target {k} (m : gmap string (ptr k)) (rel : toOne) : ptr k :=
  match toOne.Data rel with
  | Some d => index nil m (ID d)
  | None => nil
  end.

(** A pointer that resolution may attach: nil, or an entry of the table. *)
Definition from_table {k} (m : gmap string (ptr k)) (p : ptr k) : Prop :=
  p = nil ∨ ∃ id, m !! id = Some p.

(** The outcome of a fetch operation: an entity and no error, or no entity
    and an error. *)
Definition entity_or_error {A} (r : option A * option error) : Prop :=
  (∃ a, r = (Some a, None)) ∨ (∃ err, r = (None, Some err)).

(** The outcome of a fetch operation, given the error of its [get]: that
    error and no entity, or an entity and no error. *)
Definition all_or_nothing {A} (err : option error) (r : option A * option error) : Prop :=
  match err with
  | Some e => r = (None, Some e)
  | None => ∃ a, r = (Some a, None)
  end.

(** ** The constructor of the client *)

Definition BaseURL : string := "https://www.patreon.com".

(** [NewClient(httpClient)]: the argument is a [*http.Client], nil being
    [None]; [DefaultClient] stands for [http.DefaultClient]. *)
Definition NewClient (DefaultClient : string → result Response)
    (httpClient : option (string → result Response)) : Client :=
  let httpClient :=
    match httpClient with
    | None => DefaultClient
    | Some h => h
    end in
  {| httpClient := httpClient; baseURL := BaseURL |}.

(** The method [Client] of a [*Client]. *)
Module Client.
Definition Client (c : Client) : string → result Response := httpClient c.
End Client.

(** ** The query of a request *)

(** [fmt.Sprintf("fields[%s]", resource)] *)
Definition fieldsKey (resource : string) : string := "fields[" +:+ resource +:+ "]".

(** ** More of the canned server *)

(** An environment whose URL parser is replaced. *)
Definition withParseRequestURI (env : Env) (parse : string → result URL) : Env :=
  {| ParseRequestURI := parse;
     URL_String := @URL_String env;
     Values_Encode := @Values_Encode env;
     Itoa := @Itoa env;
     getOptions := @getOptions env;
     range := @range env;
     range_perm := @range_perm env;
     json_ErrorResponse := @json_ErrorResponse env;
     json_identityResponse := @json_identityResponse env;
     json_campaignResponse := @json_campaignResponse env;
     json_campaignListResponse := @json_campaignListResponse env;
     json_memberResponse := @json_memberResponse env |}.

(** A client whose transport fails on every request. *)
Definition downClient (e : liberror) : Client :=
  {| httpClient := λ _, Err e; baseURL := BaseURL |}.

Definition campaignListDocument (body : string) (data : slice campaignResponse.data)
    (included : list RawResource) : table campaignListResponse :=
  λ b h,
    if decide (b = body) then
      let '(idx, h') := buildIndex included h in
      Some ({| campaignListResponse.Data := data;
               campaignListResponse.Included := idx |}, h')
    else None.

(** Two campaigns of one creator, the included user 9. *)
Definition twoCampaignsBody : string :=
  "{data:[{type:campaign,id:1,creator:9},{type:campaign,id:2,creator:9}]}".

Definition twoCampaigns : table campaignListResponse :=
  campaignListDocument twoCampaignsBody
    (Some [campaignData "1" (Some (ref "user" "9")) None None None;
           campaignData "2" (Some (ref "user" "9")) None None None])
    [resource "user" "9" [("full_name", "Alice")]].

(** The request options of a caller: an include list, two sparse
    fieldsets, a page size and a cursor. *)
Definition someOptions : list RequestOpt :=
  [λ _, {| options.include := "tiers,creator";
           options.fields := {[ "campaign" := "summary"; "tier" := "title" ]};
           options.size := 20;
           options.cursor := "abc" |}].

(** A client whose transport answers by address, and with 404 elsewhere. *)
Definition routingClient (routes : gmap string Response) : Client :=
  {| httpClient := λ addr,
       match routes !! addr with
       | Some r => Ok r
       | None => Ok {| StatusCode := 404; Body := "" |}
       end;
     baseURL := BaseURL |}.

(** The campaign of the scenario, as the only campaign of a list. *)
Definition creatorAliceListBody : string :=
  "{data:[{type:campaign,id:1,relationships:{creator:{data:{type:user,id:9}}}}]}".

Definition creatorAliceList : table campaignListResponse :=
  campaignListDocument creatorAliceListBody
    (Some [campaignData "1" (Some (ref "user" "9")) None None None])
    [resource "user" "9" [("full_name", "Alice")]].

(** The server of the scenario, with the campaign under both endpoints. *)
Definition aliceEnv : Env :=
  cannedEnv noTable noTable creatorAlice creatorAliceList noTable.

Definition aliceClient : Client :=
  routingClient
    {[ "https://www.patreon.com/api/oauth2/v2/campaigns/1" :=
         {| StatusCode := 200; Body := creatorAliceBody |};
       "https://www.patreon.com/api/oauth2/v2/campaigns" :=
         {| StatusCode := 200; Body := creatorAliceListBody |} ]}.

(** The campaign with the dangling benefit, as the only campaign of a
    list. *)
Definition danglingBenefitListBody : string :=
  "{data:[{type:campaign,id:1,relationships:{benefits:{data:[a,b,c]}}}]}".

Definition danglingBenefitList : table campaignListResponse :=
  campaignListDocument danglingBenefitListBody
    (Some [campaignData "1" None
             (Some [ref "benefit" "a"; ref "benefit" "b"; ref "benefit" "c"]) None None])
    [resource "benefit" "a" []; resource "benefit" "c" []].

(** ** The index by type and id *)




(** ** The outcome of a fetch operation *)

(** What an operation that requests [path] and decodes a [T] returns, by
    what its collaborators do: the URL parser's error and an untouched
    world; or, the request sent, the transport's error; or, on a status
    other than 200, the decoded error list as APIError or the decoder's
    error; or, on the status 200, the decoder's error or an entity that is
    [resolved] from the decoded response. An entity comes with a nil error
    and an error with a nil entity. *)
Definition outcome `{!Env} {T A : Type} `{!Unmarshal T} `{!Zero T}
    (c : Client) (path : string) (opts : list RequestOpt) (w : World)
    (resolved : T → A → Prop) (r : option A * option error * World) : Prop :=
  match buildURL c path opts with
  | Err e => r = ((None, Some (Lib e)), w)
  | Ok addr =>
      match httpClient c addr with
      | Err e => r = ((None, Some (Lib e)), sent addr (heap w) w)
      | Ok resp =>
          if decide (StatusCode resp = StatusOK) then
            match Decode (Body resp) (zero : T) (heap w) with
            | (_, Some e, h) => r = ((None, Some (Lib e)), sent addr h w)
            | (v, None, h) => ∃ a : A, r = ((Some a, None), sent addr h w) ∧ resolved v a
            end
          else
            match Decode (Body resp) (zero : ErrorResponse) (heap w) with
            | (_, Some e, h) => r = ((None, Some (Lib e)), sent addr h w)
            | (errs, None, h) => r = ((None, Some (APIError errs)), sent addr h w)
            end
      end
  end.

(** A campaign resolved from a primary resource and the index: the id and
    the attributes of the resource, the creator found under its id (nil
    for null data or no entry), one slot per identifier of each to-many
    relationship. *)
Definition resolvedCampaign (included : includes) (item : campaignResponse.data)
    (campaign : Campaign) : Prop :=
  let rel := campaignResponse.Relationships item in
  Campaign.ID campaign = campaignResponse.ID item
  ∧ Campaign.CampaignAttributes campaign = campaignResponse.Attributes item
  ∧ Campaign.Creator campaign = target (users included) (campaignResponse.Creator rel)
  ∧ elems (Campaign.Benefits campaign)
    = slots (benefits included) (campaignResponse.Benefits rel)
  ∧ elems (Campaign.Goals campaign) = slots (goals included) (campaignResponse.Goals rel)
  ∧ elems (Campaign.Tiers campaign) = slots (tiers included) (campaignResponse.Tiers rel).

Definition resolvedCampaigns (resp : campaignListResponse)
    (campaigns : list (option Campaign)) : Prop :=
  Forall2 (λ item oc, ∃ campaign : Campaign,
             oc = Some campaign
             ∧ resolvedCampaign (campaignListResponse.Included resp) item campaign)
          (elems (campaignListResponse.Data resp)) campaigns.

Definition resolvedUser (resp : identityResponse) (user : User) : Prop :=
  let data := identityResponse.Data resp in
  let included := identityResponse.Included resp in
  User.ID user = identityResponse.ID data
  ∧ User.UserAttributes user = identityResponse.Attributes data
  ∧ User.Campaign user
    = target (campaigns included)
             (identityResponse.Campaign (identityResponse.Relationships data))
  ∧ elems (User.Memberships user) ≡ₚ (map_to_list (memberships included)).*2.

Definition resolvedMember (resp : memberResponse) (member : Member) : Prop :=
  let data := memberResponse.Data resp in
  let rel := memberResponse.Relationships data in
  let included := memberResponse.Included resp in
  Member.ID member = memberResponse.ID data
  ∧ Member.MemberAttributes member = memberResponse.Attributes data
  ∧ Member.Address member = target (addresses included) (memberResponse.Address rel)
  ∧ Member.Campaign member = target (campaigns included) (memberResponse.Campaign rel)
  ∧ Member.User member = target (users included) (memberResponse.User rel)
  ∧ elems (Member.CurrentlyEntitledTiers member) ≡ₚ (map_to_list (tiers included)).*2.

(** ** Lemmas on the Go values *)

Lemma grow_append {A} (s : slice A) (x : A) (l : list A) :
  grow (append s x) l = grow s (x :: l).
Proof.
  destruct l as [|y l]; simpl; [reflexivity|].
  unfold append. simpl. by rewrite <- app_assoc.
Qed.

Lemma elems_grow_nil {A} (l : list A) : elems (grow None l) = l.
Proof. by destruct l. Qed.

Lemma index_lookup_Some {V} (z : V) (m : gmap string V) (k : string) (v : V) :
  m !! k = Some v → index z m k = v.
Proof. unfold index. by intros ->. Qed.

Lemma index_lookup_None {V} (z : V) (m : gmap string V) (k : string) :
  m !! k = None → index z m k = z.
Proof. unfold index. by intros ->. Qed.

Lemma index_from_table {k} (m : gmap string (ptr k)) (id : string) :
  from_table m (index nil m id).
Proof.
  unfold from_table, index. destruct (m !! id) as [p|] eqn:E; simpl; eauto.
Qed.

Lemma target_from_table {k} (m : gmap string (ptr k)) (rel : toOne) :
  from_table m (target m rel).
Proof.
  unfold target. destruct (toOne.Data rel); [apply index_from_table | by left].
Qed.

Lemma slots_from_table {k} (m : gmap string (ptr k)) (rel : toMany) :
  Forall (from_table m) (slots m rel).
Proof.
  unfold slots. apply Forall_fmap, Forall_forall. intros d _. apply index_from_table.
Qed.

Lemma length_slots {k} (m : gmap string (ptr k)) (rel : toMany) :
  length (slots m rel) = len (toMany.Data rel).
Proof. unfold slots, len. by rewrite length_fmap. Qed.

(** The loop of [GetCampaigns] stores one campaign per resource and leaves
    no nil pointer of the [make]. *)
Lemma store_loop {A B} (f : A → B) (l : list A) (done rest : list (option B)) :
  length rest = length l →
  foldl (λ s '(idx, item), store s idx (Some (f item)))
        (Some (done ++ rest)) (imap (λ i x, (length done + i, x)) l)
  = Some (done ++ (Some ∘ f <$> l)).
Proof.
  revert done rest. induction l as [|x l IH]; intros done rest Hlen.
  - destruct rest; [done | discriminate].
  - destruct rest as [|r rest]; [discriminate|]. simpl in Hlen.
    rewrite imap_cons. cbn [foldl store].
    replace (<[length done + 0:=Some (f x)]> (done ++ r :: rest))
      with ((done ++ [Some (f x)]) ++ rest).
    2:{ rewrite Nat.add_0_r, insert_app_r_alt by lia.
        rewrite Nat.sub_diag. simpl. by rewrite <- app_assoc. }
    erewrite imap_ext; [rewrite (IH (done ++ [Some (f x)]) rest) by lia|].
    + rewrite <- app_assoc. reflexivity.
    + intros i y _. simpl. rewrite length_app. simpl. f_equal. lia.
Qed.

Lemma make_store_loop {A B} (f : A → B) (l : list A) :
  foldl (λ s '(idx, item), store s idx (Some (f item)))
        (make None (length l)) (imap pair l)
  = Some (Some ∘ f <$> l).
Proof.
  unfold make.
  apply (store_loop f l [] (replicate (length l) None)).
  by rewrite length_replicate.
Qed.

(** ** Lemmas on the assembly loops *)

Lemma loop_Benefits (m : gmap string (ptr KBenefit)) (l : list Data) (c : Campaign) :
  foldl (λ campaign relation,
           setBenefits campaign
             (append (Campaign.Benefits campaign) (index nil m (ID relation)))) c l
  = setBenefits c (grow (Campaign.Benefits c) ((λ d, index nil m (ID d)) <$> l)).
Proof.
  revert c. induction l as [|d l IH]; intros c.
  - by destruct c.
  - cbn [foldl]. rewrite IH. cbn [fmap list_fmap]. rewrite <- grow_append. reflexivity.
Qed.

Lemma loop_Goals (m : gmap string (ptr KGoal)) (l : list Data) (c : Campaign) :
  foldl (λ campaign relation,
           setGoals campaign
             (append (Campaign.Goals campaign) (index nil m (ID relation)))) c l
  = setGoals c (grow (Campaign.Goals c) ((λ d, index nil m (ID d)) <$> l)).
Proof.
  revert c. induction l as [|d l IH]; intros c.
  - by destruct c.
  - cbn [foldl]. rewrite IH. cbn [fmap list_fmap]. rewrite <- grow_append. reflexivity.
Qed.

Lemma loop_Tiers (m : gmap string (ptr KTier)) (l : list Data) (c : Campaign) :
  foldl (λ campaign relation,
           setTiers campaign
             (append (Campaign.Tiers campaign) (index nil m (ID relation)))) c l
  = setTiers c (grow (Campaign.Tiers c) ((λ d, index nil m (ID d)) <$> l)).
Proof.
  revert c. induction l as [|d l IH]; intros c.
  - by destruct c.
  - cbn [foldl]. rewrite IH. cbn [fmap list_fmap]. rewrite <- grow_append. reflexivity.
Qed.

Lemma loop_Memberships (l : list (string * ptr KMember)) (u : User) :
  foldl (λ user '(_, value), setMemberships user (append (User.Memberships user) value)) u l
  = setMemberships u (grow (User.Memberships u) l.*2).
Proof.
  revert u. induction l as [|[k v] l IH]; intros u.
  - by destruct u.
  - cbn [foldl]. rewrite IH. cbn [fmap list_fmap snd]. rewrite <- grow_append. reflexivity.
Qed.

Lemma loop_CurrentlyEntitledTiers (l : list (string * ptr KTier)) (m : Member) :
  foldl (λ member '(_, item),
           setCurrentlyEntitledTiers member
             (append (Member.CurrentlyEntitledTiers member) item)) m l
  = setCurrentlyEntitledTiers m (grow (Member.CurrentlyEntitledTiers m) l.*2).
Proof.
  revert m. induction l as [|[k v] l IH]; intros m.
  - by destruct m.
  - cbn [foldl]. rewrite IH. cbn [fmap list_fmap snd]. rewrite <- grow_append. reflexivity.
Qed.

(** The campaign assembled from one primary resource, field by field. *)
Lemma GetCampaigns_item_eq (included : includes) (item : campaignResponse.data) :
  GetCampaigns_item included item =
  let rel := campaignResponse.Relationships item in
  {| Campaign.ID := campaignResponse.ID item;
     Campaign.CampaignAttributes := campaignResponse.Attributes item;
     Campaign.Tiers := grow None (slots (tiers included) (campaignResponse.Tiers rel));
     Campaign.Creator := target (users included) (campaignResponse.Creator rel);
     Campaign.Benefits := grow None (slots (benefits included) (campaignResponse.Benefits rel));
     Campaign.Goals := grow None (slots (goals included) (campaignResponse.Goals rel)) |}.
Proof.
  unfold GetCampaigns_item. rewrite loop_Tiers, loop_Goals, loop_Benefits.
  unfold slots, target.
  destruct item as [id [a|] [[[d|]] b g t]]; reflexivity.
Qed.

Section equations.
Context `{!Env}.

Lemma GetCampaignByID_eq (c : Client) (id : string) (opts : list RequestOpt) (w : World) :
  GetCampaignByID c id opts w =
  let '((resp, err), w') :=
    get c ("/api/oauth2/v2/campaigns/" +:+ id) (zero : campaignResponse) opts w in
  match err with
  | Some err => ((None, Some err), w')
  | None =>
      ((Some (GetCampaigns_item (campaignResponse.Included resp) (campaignResponse.Data resp)),
        None), w')
  end.
Proof.
  unfold GetCampaignByID, mbind, M_bind.
  destruct (get _ _ _ _ w) as [[resp [err|]] w']; reflexivity.
Qed.

Lemma GetCampaigns_eq (c : Client) (opts : list RequestOpt) (w : World) :
  GetCampaigns c opts w =
  let '((resp, err), w') :=
    get c "/api/oauth2/v2/campaigns" (zero : campaignListResponse) opts w in
  match err with
  | Some err => ((None, Some err), w')
  | None =>
      ((Some (Some ∘ GetCampaigns_item (campaignListResponse.Included resp)
                <$> elems (campaignListResponse.Data resp)), None), w')
  end.
Proof.
  unfold GetCampaigns, mbind, M_bind.
  destruct (get _ _ _ _ w) as [[resp [err|]] w']; [reflexivity|].
  unfold mret, M_ret, len. by rewrite make_store_loop.
Qed.

Lemma GetIdentity_eq (c : Client) (opts : list RequestOpt) (w : World) :
  GetIdentity c opts w =
  let '((resp, err), w') :=
    get c "/api/oauth2/v2/identity" (zero : identityResponse) opts w in
  match err with
  | Some err => ((None, Some err), w')
  | None =>
      let data := identityResponse.Data resp in
      let included := identityResponse.Included resp in
      ((Some {| User.UserAttributes := identityResponse.Attributes data;
                User.ID := identityResponse.ID data;
                User.Memberships := grow None (range (memberships included)).*2;
                User.Campaign :=
                  target (campaigns included)
                         (identityResponse.Campaign (identityResponse.Relationships data)) |},
        None), w')
  end.
Proof.
  unfold GetIdentity, mbind, M_bind.
  destruct (get _ _ _ _ w) as [[resp [err|]] w']; [reflexivity|].
  cbn zeta. rewrite loop_Memberships. unfold target, mret, M_ret.
  destruct (toOne.Data _); reflexivity.
Qed.

Lemma GetMemberByID_eq (c : Client) (id : string) (opts : list RequestOpt) (w : World) :
  GetMemberByID c id opts w =
  let '((resp, err), w') :=
    get c ("/api/oauth2/v2/members/" +:+ id) (zero : memberResponse) opts w in
  match err with
  | Some err => ((None, Some err), w')
  | None =>
      let data := memberResponse.Data resp in
      let rel := memberResponse.Relationships data in
      let included := memberResponse.Included resp in
      ((Some {| Member.ID := memberResponse.ID data;
                Member.MemberAttributes := memberResponse.Attributes data;
                Member.Address := target (addresses included) (memberResponse.Address rel);
                Member.Campaign := target (campaigns included) (memberResponse.Campaign rel);
                Member.CurrentlyEntitledTiers := grow None (range (tiers included)).*2;
                Member.User := target (users included) (memberResponse.User rel) |},
        None), w')
  end.
Proof.
  unfold GetMemberByID, mbind, M_bind.
  destruct (get _ _ _ _ w) as [[resp [err|]] w']; [reflexivity|].
  cbn zeta. rewrite loop_CurrentlyEntitledTiers. unfold target, mret, M_ret.
  destruct (memberResponse.Attributes _), (toOne.Data (memberResponse.Address _)),
    (toOne.Data (memberResponse.Campaign _)), (toOne.Data (memberResponse.User _)); reflexivity.
Qed.

(** [range] visits every entry of the map once. *)
Lemma range_values {V} (m : gmap string V) : (range m).*2 ≡ₚ (map_to_list m).*2.
Proof. apply fmap_Permutation, range_perm. Qed.

End equations.

(** ** Lemmas on the request path *)

Section request.
Context `{!Env} {T : Type} `{!Unmarshal T}.
Implicit Types (c : Client) (path : string) (v : T) (opts : list RequestOpt) (w : World).

Lemma get_buildURL_Err c path v opts w e :
  buildURL c path opts = Err e →
  get c path v opts w = ((v, Some (Lib e)), w).
Proof. unfold get. by intros ->. Qed.

Lemma get_transport_Err c path v opts w addr e :
  buildURL c path opts = Ok addr →
  httpClient c addr = Err e →
  get c path v opts w = ((v, Some (Lib e)), sent addr (heap w) w).
Proof.
  intros Hurl Hget. unfold get. rewrite Hurl.
  unfold mbind, M_bind, httpGet. by rewrite Hget.
Qed.

Lemma get_status_not_OK c path v opts w addr r :
  buildURL c path opts = Ok addr →
  httpClient c addr = Ok r →
  StatusCode r ≠ StatusOK →
  get c path v opts w =
  let '(errs, err, h) := Decode (Body r) (zero : ErrorResponse) (heap w) in
  ((v, Some (match err with Some e => Lib e | None => APIError errs end)), sent addr h w).
Proof.
  intros Hurl Hget Hstatus. unfold get. rewrite Hurl.
  unfold mbind, M_bind, httpGet. rewrite Hget.
  destruct (decide (StatusCode r ≠ StatusOK)) as [_|]; [|done].
  unfold decode. cbn [heap requests].
  destruct (Decode (Body r) zero (heap w)) as [[errs [e|]] h]; reflexivity.
Qed.

Lemma get_status_OK c path v opts w addr r :
  buildURL c path opts = Ok addr →
  httpClient c addr = Ok r →
  StatusCode r = StatusOK →
  get c path v opts w =
  let '(v', err, h) := Decode (Body r) v (heap w) in
  ((v', Lib <$> err), sent addr h w).
Proof.
  intros Hurl Hget Hstatus. unfold get. rewrite Hurl.
  unfold mbind, M_bind, httpGet. rewrite Hget.
  destruct (decide (StatusCode r ≠ StatusOK)) as [|_]; [done|].
  unfold decode. cbn [heap requests].
  destruct (Decode (Body r) v (heap w)) as [[v' err] h]; reflexivity.
Qed.

(** [get] sends at most one request, and none when the URL does not
    parse. *)
Lemma get_requests c path v opts w :
  requests (get c path v opts w).2 = requests w
  ∨ ∃ addr, requests (get c path v opts w).2 = requests w ++ [addr].
Proof.
  destruct (buildURL c path opts) as [addr|e] eqn:Hurl.
  - right. exists addr.
    destruct (httpClient c addr) as [r|e] eqn:Hget.
    + destruct (decide (StatusCode r = StatusOK)) as [Hs|Hs].
      * rewrite (get_status_OK _ _ _ _ _ _ _ Hurl Hget Hs).
        by destruct (Decode (Body r) v (heap w)) as [[? ?] ?].
      * rewrite (get_status_not_OK _ _ _ _ _ _ _ Hurl Hget Hs).
        by destruct (Decode (Body r) zero (heap w)) as [[? ?] ?].
    + by rewrite (get_transport_Err _ _ _ _ _ _ _ Hurl Hget).
  - left. by rewrite (get_buildURL_Err _ _ _ _ _ _ Hurl).
Qed.

End request.

(** ** To-many relationships *)

Lemma slots_dangling_middle {k} (m : gmap string (ptr k)) (rel : toMany)
    (a b c : Data) (A C : ptr k) :
  elems (toMany.Data rel) = [a; b; c] →
  m !! ID a = Some A → m !! ID b = None → m !! ID c = Some C →
  grow None (slots m rel) = Some [A; nil; C].
Proof.
  intros Hids Ha Hb Hc. unfold slots. rewrite Hids. cbn [fmap list_fmap grow elems default app].
  by rewrite (index_lookup_Some _ _ _ _ Ha), (index_lookup_None _ _ _ Hb),
    (index_lookup_Some _ _ _ _ Hc).
Qed.

(** C1, as stated, fails: for the campaign whose benefits are [a, b, c]
    with [b] not included, [GetCampaignByID] returns the three-element
    collection [A, nil, C], not the two-element [A, C]: the dangling
    identifier keeps its position, filled with a nil pointer. *)
Lemma C1_dangling_identifier_is_nil_padded :
  ∃ (resp : campaignResponse) (campaign : Campaign) (A C : ptr KBenefit) (w' : World),
    @get (campaignEnv danglingBenefit) campaignResponse
      (@json_campaignResponse (campaignEnv danglingBenefit))
      (cannedClient 200 danglingBenefitBody) ("/api/oauth2/v2/campaigns/" +:+ "1") zero []
      emptyWorld = ((resp, None), w')
    ∧ ID <$> elems (toMany.Data (campaignResponse.Benefits
                            (campaignResponse.Relationships (campaignResponse.Data resp))))
      = ["a"; "b"; "c"]
    ∧ benefits (campaignResponse.Included resp) !! "a" = Some A
    ∧ benefits (campaignResponse.Included resp) !! "b" = None
    ∧ benefits (campaignResponse.Included resp) !! "c" = Some C
    ∧ @GetCampaignByID (campaignEnv danglingBenefit) (cannedClient 200 danglingBenefitBody)
        "1" [] emptyWorld = ((Some campaign, None), w')
    ∧ Campaign.Benefits campaign = Some [A; nil; C]
    ∧ Campaign.Benefits campaign ≠ Some [A; C].
Proof.
  eexists _, _, (Some 1%positive), (Some 2%positive), _.
  split; [vm_compute; reflexivity|].
  do 4 (split; [vm_compute; reflexivity|]).
  split; [vm_compute; reflexivity|].
  split; [reflexivity | discriminate].
Qed.

(** C1, amended: for every campaign that [GetCampaignByID] assembles, each
    to-many relationship (benefits, goals, tiers) resolves to a collection
    with one slot per identifier, in the order of the identifiers: the
    slot holds the entry of the Included Index under that id, and the nil
    pointer when the identifier is dangling. In particular, identifiers
    [a, b, c] with [b] dangling resolve to [A, nil, C]. *)
Theorem C1_to_many_keeps_one_slot_per_identifier `{!Env}
    (c : Client) (id : string) (opts : list RequestOpt) (w w' : World)
    (resp : campaignResponse) :
  get c ("/api/oauth2/v2/campaigns/" +:+ id) (zero : campaignResponse) opts w
    = ((resp, None), w') →
  let rel := campaignResponse.Relationships (campaignResponse.Data resp) in
  let included := campaignResponse.Included resp in
  ∃ campaign : Campaign,
    GetCampaignByID c id opts w = ((Some campaign, None), w')
    ∧ elems (Campaign.Benefits campaign)
      = (λ d, index nil (benefits included) (ID d))
          <$> elems (toMany.Data (campaignResponse.Benefits rel))
    ∧ elems (Campaign.Goals campaign)
      = (λ d, index nil (goals included) (ID d))
          <$> elems (toMany.Data (campaignResponse.Goals rel))
    ∧ elems (Campaign.Tiers campaign)
      = (λ d, index nil (tiers included) (ID d))
          <$> elems (toMany.Data (campaignResponse.Tiers rel))
    ∧ (∀ a b c A C,
         elems (toMany.Data (campaignResponse.Benefits rel)) = [a; b; c] →
         benefits included !! ID a = Some A →
         benefits included !! ID b = None →
         benefits included !! ID c = Some C →
         Campaign.Benefits campaign = Some [A; nil; C])
    ∧ (∀ a b c A C,
         elems (toMany.Data (campaignResponse.Goals rel)) = [a; b; c] →
         goals included !! ID a = Some A →
         goals included !! ID b = None →
         goals included !! ID c = Some C →
         Campaign.Goals campaign = Some [A; nil; C])
    ∧ (∀ a b c A C,
         elems (toMany.Data (campaignResponse.Tiers rel)) = [a; b; c] →
         tiers included !! ID a = Some A →
         tiers included !! ID b = None →
         tiers included !! ID c = Some C →
         Campaign.Tiers campaign = Some [A; nil; C]).
Proof.
  intros Hget rel included. eexists. split.
  { rewrite GetCampaignByID_eq, Hget. reflexivity. }
  rewrite GetCampaigns_item_eq. cbn [Campaign.Benefits Campaign.Goals Campaign.Tiers].
  rewrite !elems_grow_nil. fold rel included.
  repeat split; try reflexivity; intros a b c' A C ? ? ? ?;
    by apply (slots_dangling_middle _ _ a b c').
Qed.

Lemma C1_to_many_witness :
  let env := campaignEnv danglingBenefit in
  let c := cannedClient 200 danglingBenefitBody in
  let r := @get env campaignResponse _ c ("/api/oauth2/v2/campaigns/" +:+ "1") zero []
             emptyWorld in
  r.1.2 = None
  ∧ ∃ campaign : Campaign,
      @GetCampaignByID env c "1" [] emptyWorld = ((Some campaign, None), r.2)
      ∧ Campaign.Benefits campaign = Some [Some 1%positive; @nil KBenefit; Some 2%positive].
Proof.
  intros env c r. split; [vm_compute; reflexivity|].
  destruct (@C1_to_many_keeps_one_slot_per_identifier env c "1" [] emptyWorld r.2 r.1.1)
    as (campaign & Hrun & _ & _ & _ & Habc & _).
  { vm_compute; reflexivity. }
  exists campaign. split; [exact Hrun|].
  apply (Habc (ref "benefit" "a") (ref "benefit" "b") (ref "benefit" "c"));
    vm_compute; reflexivity.
Defined.

(** The same for every campaign of the list that [GetCampaigns] returns,
    which has one campaign per primary resource and no nil pointer. *)
Lemma GetCampaigns_one_slot_per_identifier `{!Env}
    (c : Client) (opts : list RequestOpt) (w w' : World) (resp : campaignListResponse) :
  get c "/api/oauth2/v2/campaigns" (zero : campaignListResponse) opts w = ((resp, None), w') →
  let included := campaignListResponse.Included resp in
  ∃ campaigns : list (option Campaign),
    GetCampaigns c opts w = ((Some campaigns, None), w')
    ∧ Forall2 (λ item oc, ∃ campaign : Campaign,
         let rel := campaignResponse.Relationships item in
         oc = Some campaign
         ∧ Campaign.Creator campaign = target (users included) (campaignResponse.Creator rel)
         ∧ elems (Campaign.Benefits campaign)
           = slots (benefits included) (campaignResponse.Benefits rel)
         ∧ elems (Campaign.Goals campaign)
           = slots (goals included) (campaignResponse.Goals rel)
         ∧ elems (Campaign.Tiers campaign)
           = slots (tiers included) (campaignResponse.Tiers rel))
        (elems (campaignListResponse.Data resp)) campaigns.
Proof.
  intros Hget included. eexists. split.
  { rewrite GetCampaigns_eq, Hget. reflexivity. }
  apply Forall2_fmap_r, Forall_Forall2_diag, Forall_forall. intros item _.
  eexists. split; [reflexivity|].
  rewrite GetCampaigns_item_eq.
  cbn [Campaign.Benefits Campaign.Goals Campaign.Tiers Campaign.Creator].
  by rewrite !elems_grow_nil.
Qed.

(** ** The entitled tiers of a member *)

(** C2, as stated, fails: the member document whose block
    [currently_entitled_tiers] is present and empty, with one tier
    included, is assembled with that tier as entitled tier; the collection
    is not empty. *)
Lemma C2_present_but_empty_block_is_filled :
  ∃ (resp : memberResponse) (member : Member) (w' : World),
    @get (memberEnv entitledToNothing) memberResponse
      (@json_memberResponse (memberEnv entitledToNothing))
      (cannedClient 200 entitledToNothingBody) ("/api/oauth2/v2/members/" +:+ "7") zero []
      emptyWorld = ((resp, None), w')
    ∧ memberResponse.CurrentlyEntitledTiers
        (memberResponse.Relationships (memberResponse.Data resp))
      = Some {| toMany.Data := Some [] |}
    ∧ @GetMemberByID (memberEnv entitledToNothing) (cannedClient 200 entitledToNothingBody)
        "7" [] emptyWorld = ((Some member, None), w')
    ∧ Member.CurrentlyEntitledTiers member = Some [Some 1%positive]
    ∧ len (Member.CurrentlyEntitledTiers member) ≠ 0.
Proof.
  eexists _, _, _.
  split; [vm_compute; reflexivity|].
  split; [reflexivity|].
  split; [vm_compute; reflexivity|].
  split; [reflexivity | discriminate].
Qed.

(** C2, amended: for every member document, the assembler fills
    CurrentlyEntitledTiers with all the included entities of type tier,
    each once, in the order [range] visits the table, whether the
    relationship block of that name is absent, present but empty, or
    present with identifiers: the block is not consulted, and the collection
    has as many elements as tiers are included. *)
Theorem C2_entitled_tiers_are_all_included_tiers `{!Env}
    (c : Client) (id : string) (opts : list RequestOpt) (w w' : World)
    (resp : memberResponse) :
  get c ("/api/oauth2/v2/members/" +:+ id) (zero : memberResponse) opts w
    = ((resp, None), w') →
  ∃ member : Member,
    GetMemberByID c id opts w = ((Some member, None), w')
    ∧ elems (Member.CurrentlyEntitledTiers member)
      ≡ₚ (map_to_list (tiers (memberResponse.Included resp))).*2
    ∧ len (Member.CurrentlyEntitledTiers member)
      = size (tiers (memberResponse.Included resp)).
Proof.
  intros Hget. eexists. split.
  { rewrite GetMemberByID_eq, Hget. reflexivity. }
  cbn [Member.CurrentlyEntitledTiers]. unfold len. rewrite elems_grow_nil.
  split; [apply range_values|].
  by rewrite range_values, length_fmap, length_map_to_list.
Qed.

Lemma C2_entitled_tiers_witness :
  let env := memberEnv entitledToNothing in
  let c := cannedClient 200 entitledToNothingBody in
  let r := @get env memberResponse _ c ("/api/oauth2/v2/members/" +:+ "7") zero []
             emptyWorld in
  r.1.2 = None
  ∧ ∃ member : Member,
      @GetMemberByID env c "7" [] emptyWorld = ((Some member, None), r.2)
      ∧ len (Member.CurrentlyEntitledTiers member) = 1.
Proof.
  intros env c r. split; [vm_compute; reflexivity|].
  destruct (@C2_entitled_tiers_are_all_included_tiers env c "7" [] emptyWorld r.2 r.1.1)
    as (member & Hrun & _ & Hlen).
  { vm_compute; reflexivity. }
  exists member. split; [exact Hrun|].
  rewrite Hlen. vm_compute; reflexivity.
Defined.

(** ** Null data and empty lists *)

(** C3, as stated, fails: the campaign document with [tiers: {data: null}]
    and the one with [tiers: {data: []}] are assembled into the same
    campaign, whose Tiers is the nil slice in both cases. *)
Lemma C3_null_and_empty_list_are_assembled_alike :
  ∃ (r1 r2 : campaignResponse) (campaign : Campaign) (w1 w2 : World),
    @get (campaignEnv tiersNull) campaignResponse
      (@json_campaignResponse (campaignEnv tiersNull)) (cannedClient 200 tiersNullBody)
      ("/api/oauth2/v2/campaigns/" +:+ "1") zero [] emptyWorld = ((r1, None), w1)
    ∧ @get (campaignEnv tiersEmpty) campaignResponse
        (@json_campaignResponse (campaignEnv tiersEmpty)) (cannedClient 200 tiersEmptyBody)
        ("/api/oauth2/v2/campaigns/" +:+ "1") zero [] emptyWorld = ((r2, None), w2)
    ∧ toMany.Data (campaignResponse.Tiers
              (campaignResponse.Relationships (campaignResponse.Data r1))) = None
    ∧ toMany.Data (campaignResponse.Tiers
              (campaignResponse.Relationships (campaignResponse.Data r2))) = Some []
    ∧ @GetCampaignByID (campaignEnv tiersNull) (cannedClient 200 tiersNullBody)
        "1" [] emptyWorld = ((Some campaign, None), w1)
    ∧ @GetCampaignByID (campaignEnv tiersEmpty) (cannedClient 200 tiersEmptyBody)
        "1" [] emptyWorld = ((Some campaign, None), w2)
    ∧ Campaign.Tiers campaign = None.
Proof.
  eexists _, _, _, _, _.
  split; [vm_compute; reflexivity|].
  split; [vm_compute; reflexivity|].
  repeat split; vm_compute; reflexivity.
Qed.

(** C3, amended: for every campaign that [GetCampaignByID] assembles, a
    to-many relationship whose data is null and one whose data is an empty
    list resolve to the same thing, the nil collection, so the two are not
    told apart on the assembled entity; a to-one relationship whose data is
    null resolves to no reference (the nil pointer). *)
Theorem C3_null_and_empty_data_leave_the_field_nil `{!Env}
    (c : Client) (id : string) (opts : list RequestOpt) (w w' : World)
    (resp : campaignResponse) :
  get c ("/api/oauth2/v2/campaigns/" +:+ id) (zero : campaignResponse) opts w
    = ((resp, None), w') →
  let rel := campaignResponse.Relationships (campaignResponse.Data resp) in
  ∃ campaign : Campaign,
    GetCampaignByID c id opts w = ((Some campaign, None), w')
    ∧ (toOne.Data (campaignResponse.Creator rel) = None → Campaign.Creator campaign = nil)
    ∧ (toMany.Data (campaignResponse.Benefits rel) = None
       ∨ toMany.Data (campaignResponse.Benefits rel) = Some [] →
       Campaign.Benefits campaign = None)
    ∧ (toMany.Data (campaignResponse.Goals rel) = None
       ∨ toMany.Data (campaignResponse.Goals rel) = Some [] →
       Campaign.Goals campaign = None)
    ∧ (toMany.Data (campaignResponse.Tiers rel) = None
       ∨ toMany.Data (campaignResponse.Tiers rel) = Some [] →
       Campaign.Tiers campaign = None).
Proof.
  intros Hget rel. eexists. split.
  { rewrite GetCampaignByID_eq, Hget. reflexivity. }
  rewrite GetCampaigns_item_eq.
  cbn [Campaign.Benefits Campaign.Goals Campaign.Tiers Campaign.Creator].
  fold rel. unfold target, slots.
  repeat split.
  - by intros ->.
  - by intros [-> | ->].
  - by intros [-> | ->].
  - by intros [-> | ->].
Qed.

Lemma C3_null_and_empty_witness :
  let env := campaignEnv tiersEmpty in
  let c := cannedClient 200 tiersEmptyBody in
  let r := @get env campaignResponse _ c ("/api/oauth2/v2/campaigns/" +:+ "1") zero []
             emptyWorld in
  r.1.2 = None
  ∧ ∃ campaign : Campaign,
      @GetCampaignByID env c "1" [] emptyWorld = ((Some campaign, None), r.2)
      ∧ Campaign.Creator campaign = nil
      ∧ Campaign.Benefits campaign = None
      ∧ Campaign.Tiers campaign = None.
Proof.
  intros env c r. split; [vm_compute; reflexivity|].
  destruct (@C3_null_and_empty_data_leave_the_field_nil env c "1" [] emptyWorld r.2 r.1.1)
    as (campaign & Hrun & Hcreator & Hbenefits & _ & Htiers).
  { vm_compute; reflexivity. }
  exists campaign. split; [exact Hrun|].
  split; [apply Hcreator; vm_compute; reflexivity|].
  split; [apply Hbenefits; left; vm_compute; reflexivity|].
  apply Htiers; right; vm_compute; reflexivity.
Defined.

(** The same for every campaign of the list that [GetCampaigns] returns. *)
Lemma GetCampaigns_null_and_empty_data_leave_the_field_nil `{!Env}
    (c : Client) (opts : list RequestOpt) (w w' : World) (resp : campaignListResponse) :
  get c "/api/oauth2/v2/campaigns" (zero : campaignListResponse) opts w = ((resp, None), w') →
  ∃ campaigns : list (option Campaign),
    GetCampaigns c opts w = ((Some campaigns, None), w')
    ∧ Forall2 (λ item oc, ∃ campaign : Campaign,
         let rel := campaignResponse.Relationships item in
         oc = Some campaign
         ∧ (toOne.Data (campaignResponse.Creator rel) = None →
            Campaign.Creator campaign = nil)
         ∧ (toMany.Data (campaignResponse.Benefits rel) = None
            ∨ toMany.Data (campaignResponse.Benefits rel) = Some [] →
            Campaign.Benefits campaign = None)
         ∧ (toMany.Data (campaignResponse.Goals rel) = None
            ∨ toMany.Data (campaignResponse.Goals rel) = Some [] →
            Campaign.Goals campaign = None)
         ∧ (toMany.Data (campaignResponse.Tiers rel) = None
            ∨ toMany.Data (campaignResponse.Tiers rel) = Some [] →
            Campaign.Tiers campaign = None))
        (elems (campaignListResponse.Data resp)) campaigns.
Proof.
  intros Hget. eexists. split.
  { rewrite GetCampaigns_eq, Hget. reflexivity. }
  apply Forall2_fmap_r, Forall_Forall2_diag, Forall_forall. intros item _.
  eexists. split; [reflexivity|].
  rewrite GetCampaigns_item_eq.
  cbn [Campaign.Benefits Campaign.Goals Campaign.Tiers Campaign.Creator].
  unfold target, slots. repeat split.
  - by intros ->.
  - by intros [-> | ->].
  - by intros [-> | ->].
  - by intros [-> | ->].
Qed.

(** ** To-one relationships *)


Lemma target_found {k} (m : gmap string (ptr k)) (rel : toOne) (d : Data) (p : ptr k) :
  toOne.Data rel = Some d → m !! ID d = Some p → target m rel = p.
Proof. unfold target. intros -> Hd. by apply index_lookup_Some. Qed.

Lemma buildIndex_user (id : string) (a : attributes) (h : Heap) :
  buildIndex [resource "user" id a] h =
  let l : loc := fresh (dom h) in
  let u := {| User.UserAttributes := Some {| FullName := attr a "full_name"; user_rest := a |};
              User.ID := id; User.Memberships := None; User.Campaign := nil |} in
  ({| users := {[ id := Some l ]}; campaigns := ∅; memberships := ∅; tiers := ∅;
      benefits := ∅; goals := ∅; addresses := ∅ |},
   <[l := OUser u]> h).
Proof. reflexivity. Qed.

(** C4: in the scenario of the specification (a campaign whose creator
    relationship is the identifier (user, 9), with the user 9 of full name
    Alice as the only included resource) the campaign that
    [GetCampaignByID] returns has the included user attached as Creator,
    and Creator.FullName is Alice. *)
Theorem C4_creator_of_the_scenario_is_Alice `{!Env}
    (c : Client) (id : string) (opts : list RequestOpt) (w w' : World)
    (resp : campaignResponse) (h : Heap) :
  get c ("/api/oauth2/v2/campaigns/" +:+ id) (zero : campaignResponse) opts w
    = ((resp, None), w') →
  campaignResponse.Data resp = campaignData "1" (Some (ref "user" "9")) None None None →
  (campaignResponse.Included resp, heap w')
    = buildIndex [resource "user" "9" [("full_name", "Alice")]] h →
  ∃ campaign : Campaign,
    GetCampaignByID c id opts w = ((Some campaign, None), w')
    ∧ Campaign.Creator campaign = index nil (users (campaignResponse.Included resp)) "9"
    ∧ is_Some (Campaign.Creator campaign)
    ∧ Creator_FullName (heap w') campaign = Some "Alice".
Proof.
  intros Hget Hdata Hincluded. rewrite buildIndex_user in Hincluded. cbn zeta in Hincluded.
  injection Hincluded as Hidx Hheap.
  eexists. split.
  { rewrite GetCampaignByID_eq, Hget. reflexivity. }
  rewrite GetCampaigns_item_eq. unfold Creator_FullName. cbn [Campaign.Creator].
  rewrite Hdata, Hidx, Hheap. cbn [campaignData campaignResponse.Relationships
    campaignResponse.Creator users].
  rewrite (target_found _ _ (ref "user" "9") (Some (fresh (dom h)))); [|done|done].
  split; [done|].
  split; [by eexists|].
  unfold derefUser. by rewrite lookup_insert_eq.
Qed.

Lemma C4_creator_witness :
  let env := campaignEnv creatorAlice in
  let c := cannedClient 200 creatorAliceBody in
  let r := @get env campaignResponse _ c ("/api/oauth2/v2/campaigns/" +:+ "1") zero []
             emptyWorld in
  r.1.2 = None
  ∧ ∃ campaign : Campaign,
      @GetCampaignByID env c "1" [] emptyWorld = ((Some campaign, None), r.2)
      ∧ Creator_FullName (heap r.2) campaign = Some "Alice".
Proof.
  intros env c r. split; [vm_compute; reflexivity|].
  destruct (@C4_creator_of_the_scenario_is_Alice env c "1" [] emptyWorld r.2 r.1.1 ∅)
    as (campaign & Hrun & _ & _ & Hname).
  - vm_compute; reflexivity.
  - vm_compute; reflexivity.
  - vm_compute; reflexivity.
  - exists campaign. split; [exact Hrun | exact Hname].
Defined.

(** The table a to-one relationship resolves in is fixed by the
    relationship; the type tag of the identifier is not consulted. *)
Lemma target_ignores_type_tag {k} (m : gmap string (ptr k)) (id t1 t2 : string) :
  target m {| toOne.Data := Some {| ID := id; Type_ := t1 |} |}
  = target m {| toOne.Data := Some {| ID := id; Type_ := t2 |} |}.
Proof. reflexivity. Qed.




(** ** Failed requests *)

(** [get] returns no error exactly when the URL parses, the transport
    answers, the status is 200 and the body decodes. *)
Lemma get_succeeds_iff `{!Env} {T} `{!Unmarshal T}
    (c : Client) (path : string) (v : T) (opts : list RequestOpt) (w : World) :
  (get c path v opts w).1.2 = None
  ↔ ∃ addr r, buildURL c path opts = Ok addr
              ∧ httpClient c addr = Ok r
              ∧ StatusCode r = StatusOK
              ∧ (Decode (Body r) v (heap w)).1.2 = None.
Proof.
  destruct (buildURL c path opts) as [addr|e] eqn:Hurl.
  2:{ rewrite (get_buildURL_Err _ _ _ _ _ _ Hurl). split; [done|]. by intros (? & ? & ? & _). }
  destruct (httpClient c addr) as [r|e] eqn:Hget.
  2:{ rewrite (get_transport_Err _ _ _ _ _ _ _ Hurl Hget). split; [done|].
      intros (? & ? & [= <-] & ? & _). congruence. }
  destruct (decide (StatusCode r = StatusOK)) as [Hs|Hs].
  - rewrite (get_status_OK _ _ _ _ _ _ _ Hurl Hget Hs).
    destruct (Decode (Body r) v (heap w)) as [[v' err] h] eqn:Hdec. cbn [fst snd].
    split.
    + intros Herr. exists addr, r. rewrite Hdec. by destruct err.
    + intros (? & ? & [= <-] & Hget' & _ & Herr). rewrite Hget in Hget'.
      injection Hget' as <-. rewrite Hdec in Herr. cbn in Herr. by rewrite Herr.
  - rewrite (get_status_not_OK _ _ _ _ _ _ _ Hurl Hget Hs).
    destruct (Decode (Body r) zero (heap w)) as [[errs err] h]. cbn [fst snd].
    split; [done|]. intros (? & ? & [= <-] & Hget' & Hs' & _).
    rewrite Hget in Hget'. by injection Hget' as <-.
Qed.

(** C6, as stated, fails: a response of status 502 whose body is not an
    error document makes [GetCampaignByID] return the decoder's error, not
    an APIError. *)
Lemma C6_undecodable_error_body_is_not_an_APIError :
  ∃ (e : liberror) (w' : World),
    @GetCampaignByID (errorEnv noTable) (cannedClient 502 badGatewayBody) "1" [] emptyWorld
      = ((None, Some (Lib e)), w')
    ∧ ∀ errs : ErrorResponse, Lib e ≠ APIError errs.
Proof.
  eexists _, _. split; [vm_compute; reflexivity | discriminate].
Qed.

(** C6, amended: for every response with a status other than 200,
    [GetCampaignByID] decodes the body as an error list and returns no
    campaign; when the body decodes, the error returned is the decoded list
    as one aggregate APIError, and when it does not, it is the decoder's
    error. The body of the scenario, decoded to the one item
    [{code: 1, title: invalid_token}], gives the APIError with exactly that
    item. *)
Theorem C6_non_OK_status_returns_the_decoded_errors `{!Env}
    (c : Client) (id : string) (opts : list RequestOpt) (w : World)
    (addr : string) (r : Response) :
  buildURL c ("/api/oauth2/v2/campaigns/" +:+ id) opts = Ok addr →
  httpClient c addr = Ok r →
  StatusCode r ≠ StatusOK →
  ∃ (errs : ErrorResponse) (err : option liberror) (h : Heap),
    Decode (Body r) (zero : ErrorResponse) (heap w) = (errs, err, h)
    ∧ GetCampaignByID c id opts w
      = ((None, Some (match err with Some e => Lib e | None => APIError errs end)),
         sent addr h w)
    ∧ (err = None → errs = invalidToken →
       GetCampaignByID c id opts w
       = ((None,
           Some (APIError
                   {| Errors := Some [ {| Code := 1; Title := "invalid_token";
                                          Detail := "" |} ] |})),
          sent addr h w)).
Proof.
  intros Hurl Hget Hstatus.
  destruct (Decode (Body r) (zero : ErrorResponse) (heap w)) as [[errs err] h] eqn:Hdec.
  exists errs, err, h. split; [reflexivity|].
  assert (GetCampaignByID c id opts w
          = ((None, Some (match err with Some e => Lib e | None => APIError errs end)),
             sent addr h w)) as Hrun.
  { rewrite GetCampaignByID_eq, (get_status_not_OK _ _ _ _ _ _ _ Hurl Hget Hstatus), Hdec.
    reflexivity. }
  split; [exact Hrun|]. intros -> ->. exact Hrun.
Qed.

Lemma C6_invalid_token_witness :
  let env := errorEnv (oneBody invalidTokenBody invalidToken) in
  let c := cannedClient 401 invalidTokenBody in
  ∃ w' : World,
    @GetCampaignByID env c "1" [] emptyWorld = ((None, Some (APIError invalidToken)), w').
Proof.
  intros env c.
  destruct (@C6_non_OK_status_returns_the_decoded_errors env c "1" [] emptyWorld
              "https://www.patreon.com/api/oauth2/v2/campaigns/1"
              {| StatusCode := 401; Body := invalidTokenBody |})
    as (errs & err & h & Hdec & _ & Hrun).
  - vm_compute; reflexivity.
  - reflexivity.
  - discriminate.
  - exists (sent "https://www.patreon.com/api/oauth2/v2/campaigns/1" h emptyWorld).
    vm_compute in Hdec. injection Hdec as <- <- <-.
    apply Hrun; reflexivity.
Defined.

(** The other operations fail alike: whatever [get] returns as error is
    returned, with no entity. *)
Lemma fetch_non_OK_status `{!Env} (c : Client) (id : string) (opts : list RequestOpt)
    (w : World) (status : Z) (body : string) :
  (∀ addr, httpClient c addr = Ok {| StatusCode := status; Body := body |}) →
  status ≠ StatusOK →
  (GetIdentity c opts w).1.1 = None
  ∧ (GetCampaigns c opts w).1.1 = None
  ∧ (GetCampaignByID c id opts w).1.1 = None
  ∧ (GetMemberByID c id opts w).1.1 = None.
Proof.
  intros Hget Hstatus.
  assert (∀ T (U : Unmarshal T) path (v : T), is_Some (get c path v opts w).1.2) as Hfail.
  { intros T U path v. destruct (buildURL c path opts) as [addr|e] eqn:Hurl.
    - rewrite (get_status_not_OK _ _ _ _ _ _ _ Hurl (Hget addr) Hstatus).
      cbn [Body]. destruct (Decode body zero (heap w)) as [[? ?] ?]. cbn. by eexists.
    - rewrite (get_buildURL_Err _ _ _ _ _ _ Hurl). cbn. by eexists. }
  rewrite GetIdentity_eq, GetCampaigns_eq, GetCampaignByID_eq, GetMemberByID_eq.
  repeat split.
  - destruct (Hfail identityResponse _ "/api/oauth2/v2/identity" zero) as [e He].
    destruct (get _ _ _ _ w) as [[? ?] ?]. cbn in He. by rewrite He.
  - destruct (Hfail campaignListResponse _ "/api/oauth2/v2/campaigns" zero) as [e He].
    destruct (get _ _ _ _ w) as [[? ?] ?]. cbn in He. by rewrite He.
  - destruct (Hfail campaignResponse _ ("/api/oauth2/v2/campaigns/" +:+ id) zero) as [e He].
    destruct (get _ _ _ _ w) as [[? ?] ?]. cbn in He. by rewrite He.
  - destruct (Hfail memberResponse _ ("/api/oauth2/v2/members/" +:+ id) zero) as [e He].
    destruct (get _ _ _ _ w) as [[? ?] ?]. cbn in He. by rewrite He.
Qed.

Lemma all_or_nothing_entity_or_error {A} (err : option error) (r : option A * option error) :
  all_or_nothing err r → entity_or_error r.
Proof. destruct err as [e|]; [right | left]; eauto. Qed.

(** Each of the four fetch operations returns either an entity (for
    [GetCampaigns], a list) with no error, or an error with no entity. What
    [get] returns decides which: when it returns an error, the operation
    returns nil and that error, whatever the decoder left in the response
    value; otherwise it returns the assembled entity and a nil error. *)
Lemma fetch_all_or_nothing `{!Env}
    (c : Client) (id : string) (opts : list RequestOpt) (w : World) :
  (all_or_nothing
     (get c "/api/oauth2/v2/identity" (zero : identityResponse) opts w).1.2
     (GetIdentity c opts w).1
   ∧ entity_or_error (GetIdentity c opts w).1)
  ∧ (all_or_nothing
       (get c "/api/oauth2/v2/campaigns" (zero : campaignListResponse) opts w).1.2
       (GetCampaigns c opts w).1
     ∧ entity_or_error (GetCampaigns c opts w).1)
  ∧ (all_or_nothing
       (get c ("/api/oauth2/v2/campaigns/" +:+ id) (zero : campaignResponse) opts w).1.2
       (GetCampaignByID c id opts w).1
     ∧ entity_or_error (GetCampaignByID c id opts w).1)
  ∧ (all_or_nothing
       (get c ("/api/oauth2/v2/members/" +:+ id) (zero : memberResponse) opts w).1.2
       (GetMemberByID c id opts w).1
     ∧ entity_or_error (GetMemberByID c id opts w).1).
Proof.
  assert (∀ A err (r : option A * option error),
            all_or_nothing err r → all_or_nothing err r ∧ entity_or_error r) as Hboth.
  { intros A err r Hr. split; [done | by apply all_or_nothing_entity_or_error with err]. }
  rewrite GetIdentity_eq, GetCampaigns_eq, GetCampaignByID_eq, GetMemberByID_eq.
  split; [|split; [|split]].
  - apply Hboth. destruct (get _ _ _ _ w) as [[resp [e|]] w']; cbn; eauto.
  - apply Hboth. destruct (get _ _ _ _ w) as [[resp [e|]] w']; cbn; eauto.
  - apply Hboth. destruct (get _ _ _ _ w) as [[resp [e|]] w']; cbn; eauto.
  - apply Hboth. destruct (get _ _ _ _ w) as [[resp [e|]] w']; cbn; eauto.
Qed.

(** An operation that is its [get] followed by an assembly has the outcome
    its collaborators decide. *)
Lemma outcome_of_get `{!Env} {T A : Type} `{!Unmarshal T} `{!Zero T}
    (c : Client) (path : string) (opts : list RequestOpt) (w : World)
    (resolved : T → A → Prop) (assemble : T → A)
    (r : option A * option error * World) :
  (∀ v, resolved v (assemble v)) →
  r = (let '((resp, err), w') := get c path (zero : T) opts w in
       match err with
       | Some err => ((None, Some err), w')
       | None => ((Some (assemble resp), None), w')
       end) →
  outcome c path opts w resolved r.
Proof.
  intros Hresolved ->. unfold outcome.
  destruct (buildURL c path opts) as [addr|e] eqn:Hurl.
  2:{ by rewrite (get_buildURL_Err _ _ _ _ _ _ Hurl). }
  destruct (httpClient c addr) as [resp|e] eqn:Hget.
  2:{ by rewrite (get_transport_Err _ _ _ _ _ _ _ Hurl Hget). }
  case_decide as Hs.
  - rewrite (get_status_OK _ _ _ _ _ _ _ Hurl Hget Hs).
    destruct (Decode (Body resp) (zero : T) (heap w)) as [[v [e|]] h]; [done|].
    cbn. eauto.
  - rewrite (get_status_not_OK _ _ _ _ _ _ _ Hurl Hget Hs).
    by destruct (Decode (Body resp) (zero : ErrorResponse) (heap w)) as [[errs [e|]] h].
Qed.

(** C7: each of the four fetch operations returns either an entity (for
    [GetCampaigns], a list) with a nil error, or an error with a nil
    entity, and which one is decided by its collaborators ([outcome]): when
    the URL does not parse, the parser's error, nothing being sent; when
    the transport fails, its error; when the status is not 200, the decoded
    error list or the decoder's error; when the status is 200 and the body
    does not decode, the decoder's error, whatever the decoder left in the
    response value; and only when the status is 200 and the body decodes,
    the entity, resolved from the decoded response: id and attributes of
    the primary resource, every to-one reference looked up, every to-many
    collection filled. *)
Theorem C7_entity_or_error_as_the_collaborators_decide `{!Env}
    (c : Client) (id : string) (opts : list RequestOpt) (w : World) :
  (outcome c "/api/oauth2/v2/identity" opts w resolvedUser (GetIdentity c opts w)
   ∧ entity_or_error (GetIdentity c opts w).1)
  ∧ (outcome c "/api/oauth2/v2/campaigns" opts w resolvedCampaigns (GetCampaigns c opts w)
     ∧ entity_or_error (GetCampaigns c opts w).1)
  ∧ (outcome c ("/api/oauth2/v2/campaigns/" +:+ id) opts w
       (λ resp : campaignResponse,
          resolvedCampaign (campaignResponse.Included resp) (campaignResponse.Data resp))
       (GetCampaignByID c id opts w)
     ∧ entity_or_error (GetCampaignByID c id opts w).1)
  ∧ (outcome c ("/api/oauth2/v2/members/" +:+ id) opts w resolvedMember
       (GetMemberByID c id opts w)
     ∧ entity_or_error (GetMemberByID c id opts w).1).
Proof.
  assert (∀ included item, resolvedCampaign included item (GetCampaigns_item included item))
    as Hitem.
  { intros included item. unfold resolvedCampaign. rewrite GetCampaigns_item_eq.
    cbn [Campaign.ID Campaign.CampaignAttributes Campaign.Creator Campaign.Benefits
         Campaign.Goals Campaign.Tiers].
    by rewrite !elems_grow_nil. }
  destruct (fetch_all_or_nothing c id opts w)
    as ((_ & Hi) & (_ & Hl) & (_ & Hc) & (_ & Hm)).
  split; [|split; [|split]]; (split; [|assumption]).
  - eapply outcome_of_get; [|apply GetIdentity_eq].
    intros resp. unfold resolvedUser. cbn [User.ID User.UserAttributes User.Campaign
      User.Memberships]. rewrite elems_grow_nil. repeat split. apply range_values.
  - eapply outcome_of_get; [|apply GetCampaigns_eq].
    intros resp. unfold resolvedCampaigns.
    apply Forall2_fmap_r, Forall_Forall2_diag, Forall_forall. intros item _.
    eexists. split; [reflexivity | apply Hitem].
  - eapply outcome_of_get; [|apply GetCampaignByID_eq].
    intros resp. apply Hitem.
  - eapply outcome_of_get; [|apply GetMemberByID_eq].
    intros resp. unfold resolvedMember. cbn [Member.ID Member.MemberAttributes
      Member.Address Member.Campaign Member.User Member.CurrentlyEntitledTiers].
    rewrite elems_grow_nil. repeat split. apply range_values.
Qed.

(** ** Cycles *)

Lemma cycleHeap_cyclic : cyclic cycleHeap.
Proof.
  exists 1%positive. apply tc_l with 2%positive; [|apply tc_once].
  - eexists. split; [reflexivity|]. cbn. set_solver.
  - eexists. split; [reflexivity|]. cbn. set_solver.
Qed.

(** C8: for every compound document, whatever the references between its
    entities (cycles included: no assumption is made on the heap),
    [GetCampaignByID] terminates with a result, in the very world [get]
    left: assembly sends nothing and allocates or changes no object. Each
    reference it attaches is nil or an entry of a table of the Included
    Index, found by one lookup per identifier of the primary resource; the
    referenced entities are not visited. *)
Theorem C8_assembly_is_lookup_only `{!Env}
    (c : Client) (id : string) (opts : list RequestOpt) (w w1 : World)
    (resp : campaignResponse) (err : option error) :
  get c ("/api/oauth2/v2/campaigns/" +:+ id) (zero : campaignResponse) opts w
    = ((resp, err), w1) →
  let rel := campaignResponse.Relationships (campaignResponse.Data resp) in
  let included := campaignResponse.Included resp in
  ∃ r : option Campaign * option error,
    GetCampaignByID c id opts w = (r, w1)
    ∧ match err with
      | Some e => r = (None, Some e)
      | None =>
          ∃ campaign : Campaign,
            r = (Some campaign, None)
            ∧ from_table (users included) (Campaign.Creator campaign)
            ∧ Forall (from_table (benefits included)) (elems (Campaign.Benefits campaign))
            ∧ Forall (from_table (goals included)) (elems (Campaign.Goals campaign))
            ∧ Forall (from_table (tiers included)) (elems (Campaign.Tiers campaign))
            ∧ len (Campaign.Benefits campaign) = len (toMany.Data (campaignResponse.Benefits rel))
            ∧ len (Campaign.Goals campaign) = len (toMany.Data (campaignResponse.Goals rel))
            ∧ len (Campaign.Tiers campaign) = len (toMany.Data (campaignResponse.Tiers rel))
      end.
Proof.
  intros Hget rel included. rewrite GetCampaignByID_eq, Hget.
  destruct err as [e|]; (eexists; split; [reflexivity|]); [reflexivity|].
  eexists. split; [reflexivity|].
  rewrite GetCampaigns_item_eq.
  cbn [Campaign.Benefits Campaign.Goals Campaign.Tiers Campaign.Creator].
  unfold len at 1 3 5. rewrite !elems_grow_nil, !length_slots.
  repeat split; auto using target_from_table, slots_from_table.
Qed.

(** The campaign 1 and its tier T, which refer to each other, are
    assembled. *)
Lemma C8_cyclic_document_witness :
  let env := campaignEnv cycleDocument in
  let c := cannedClient 200 cycleBody in
  let r := @get env campaignResponse _ c ("/api/oauth2/v2/campaigns/" +:+ "1") zero []
             emptyWorld in
  cyclic (heap r.2)
  ∧ ∃ campaign : Campaign,
      @GetCampaignByID env c "1" [] emptyWorld = ((Some campaign, None), r.2)
      ∧ len (Campaign.Tiers campaign) = 1.
Proof.
  intros env c r. split; [exact cycleHeap_cyclic|].
  destruct (@C8_assembly_is_lookup_only env c "1" [] emptyWorld r.2 r.1.1 None)
    as (res & Hrun & campaign & -> & _ & _ & _ & _ & _ & _ & Hlen).
  { vm_compute; reflexivity. }
  exists campaign. split; [exact Hrun | exact Hlen].
Defined.

(** ** The members of a campaign *)

(** C9: [GetMembersByCampaignID] returns (nil, nil) for every campaign id
    and every list of options, and leaves the world as it was: it sends no
    request. *)
Theorem C9_GetMembersByCampaignID_returns_nil_nil `{!Env}
    (c : Client) (id : string) (opts : list RequestOpt) (w : World) :
  GetMembersByCampaignID c id opts w = ((None, None), w)
  ∧ requests (GetMembersByCampaignID c id opts w).2 = requests w.
Proof. split; reflexivity. Qed.

(** ** The identity *)

(** C10: for every identity response that decodes, the user [GetIdentity]
    returns has as Memberships every membership of the included side-table,
    each once (in the order [range] visits the table), whatever the
    relationships of the primary resource; its Campaign is the entry the
    campaign relationship names when the data of that relationship is not
    null, and nil when it is null. *)
Theorem C10_memberships_are_all_included_memberships `{!Env}
    (c : Client) (opts : list RequestOpt) (w w' : World) (resp : identityResponse) :
  get c "/api/oauth2/v2/identity" (zero : identityResponse) opts w = ((resp, None), w') →
  let rel := identityResponse.Relationships (identityResponse.Data resp) in
  let included := identityResponse.Included resp in
  ∃ user : User,
    GetIdentity c opts w = ((Some user, None), w')
    ∧ elems (User.Memberships user) ≡ₚ (map_to_list (memberships included)).*2
    ∧ len (User.Memberships user) = size (memberships included)
    ∧ User.Campaign user
      = match toOne.Data (identityResponse.Campaign rel) with
        | Some d => index nil (campaigns included) (ID d)
        | None => nil
        end.
Proof.
  intros Hget rel included. eexists. split.
  { rewrite GetIdentity_eq, Hget. reflexivity. }
  cbn [User.Memberships User.Campaign]. unfold len. rewrite elems_grow_nil.
  split; [apply range_values|].
  split; [|reflexivity].
  by rewrite range_values, length_fmap, length_map_to_list.
Qed.

Lemma C10_memberships_witness :
  let env := identityEnv twoMemberships in
  let c := cannedClient 200 identityBody in
  let r := @get env identityResponse _ c "/api/oauth2/v2/identity" zero [] emptyWorld in
  r.1.2 = None
  ∧ ∃ user : User,
      @GetIdentity env c [] emptyWorld = ((Some user, None), r.2)
      ∧ len (User.Memberships user) = 2
      ∧ User.Campaign user = nil.
Proof.
  intros env c r. split; [vm_compute; reflexivity|].
  destruct (@C10_memberships_are_all_included_memberships env c [] emptyWorld r.2 r.1.1)
    as (user & Hrun & _ & Hlen & Hcampaign).
  { vm_compute; reflexivity. }
  exists user. split; [exact Hrun|].
  split; [rewrite Hlen; vm_compute; reflexivity | exact Hcampaign].
Defined.

(** ** The request path, further *)

Section request_properties.
Context `{!Env} {T : Type} `{!Unmarshal T}.
Implicit Types (c : Client) (path : string) (v : T) (opts : list RequestOpt) (w : World).

(** The four ways through [get]. *)
Lemma get_cases c path v opts w :
  (∃ e, buildURL c path opts = Err e
        ∧ get c path v opts w = ((v, Some (Lib e)), w))
  ∨ (∃ addr e, buildURL c path opts = Ok addr ∧ httpClient c addr = Err e
               ∧ get c path v opts w = ((v, Some (Lib e)), sent addr (heap w) w))
  ∨ (∃ addr r errs err h,
       buildURL c path opts = Ok addr ∧ httpClient c addr = Ok r
       ∧ StatusCode r ≠ StatusOK
       ∧ Decode (Body r) (zero : ErrorResponse) (heap w) = (errs, err, h)
       ∧ get c path v opts w
         = ((v, Some (match err with Some e => Lib e | None => APIError errs end)),
            sent addr h w))
  ∨ (∃ addr r v' err h,
       buildURL c path opts = Ok addr ∧ httpClient c addr = Ok r
       ∧ StatusCode r = StatusOK
       ∧ Decode (Body r) v (heap w) = (v', err, h)
       ∧ get c path v opts w = ((v', Lib <$> err), sent addr h w)).
Proof.
  destruct (buildURL c path opts) as [addr|e] eqn:Hurl.
  2:{ left. exists e. split; [done|]. by apply get_buildURL_Err. }
  right. destruct (httpClient c addr) as [r|e] eqn:Hget.
  2:{ left. exists addr, e. repeat split; [done|]. by apply get_transport_Err. }
  right. destruct (decide (StatusCode r = StatusOK)) as [Hs|Hs].
  - right. destruct (Decode (Body r) v (heap w)) as [[v' err] h] eqn:Hdec.
    exists addr, r, v', err, h. repeat split; try done.
    by rewrite (get_status_OK _ _ _ _ _ _ _ Hurl Hget Hs), Hdec.
  - left. destruct (Decode (Body r) (zero : ErrorResponse) (heap w)) as [[errs err] h] eqn:Hdec.
    exists addr, r, errs, err, h. repeat split; try done.
    by rewrite (get_status_not_OK _ _ _ _ _ _ _ Hurl Hget Hs), Hdec.
Qed.

(** X1: [get] returns the value [v'] with a nil error, in the world [w'],
    exactly when the URL was built, the transport answered with status 200,
    the body decoded into [v'] without error, and [w'] is the world with
    that one request logged and the heap the decoder left. *)
Theorem X1_get_succeeds_exactly_on_a_decoded_200 c path v opts w (v' : T) (w' : World) :
  get c path v opts w = ((v', None), w')
  ↔ ∃ addr r h,
      buildURL c path opts = Ok addr
      ∧ httpClient c addr = Ok r
      ∧ StatusCode r = StatusOK
      ∧ Decode (Body r) v (heap w) = (v', None, h)
      ∧ w' = sent addr h w.
Proof.
  split.
  - intros Hrun.
    destruct (get_cases c path v opts w)
      as [(e & _ & Hg) | [(addr & e & _ & _ & Hg) | [(addr & r & errs & err & h & _ & _ & _ & _ & Hg)
          | (addr & r & v1 & err & h & Hurl & Hget & Hs & Hdec & Hg)]]];
      rewrite Hg in Hrun; try discriminate.
    destruct err as [e|]; [discriminate|]. injection Hrun as <- <-.
    by exists addr, r, h.
  - intros (addr & r & h & Hurl & Hget & Hs & Hdec & ->).
    by rewrite (get_status_OK _ _ _ _ _ _ _ Hurl Hget Hs), Hdec.
Qed.

(** X2: [get] writes to the target value only on the status 200. The
    value it leaves is the one it was given whenever it returns through a
    URL error, a transport error or a status other than 200; on the status
    200 it is the value the decoder left, also when the decoder reports an
    error. *)
Theorem X2_get_touches_the_target_only_on_200 c path v opts w :
  (get c path v opts w).1.1
  = match buildURL c path opts with
    | Err _ => v
    | Ok addr =>
        match httpClient c addr with
        | Err _ => v
        | Ok r =>
            if decide (StatusCode r = StatusOK) then (Decode (Body r) v (heap w)).1.1
            else v
        end
    end.
Proof.
  destruct (get_cases c path v opts w)
    as [(e & Hurl & Hg) | [(addr & e & Hurl & Hget & Hg)
        | [(addr & r & errs & err & h & Hurl & Hget & Hs & _ & Hg)
        | (addr & r & v1 & err & h & Hurl & Hget & Hs & Hdec & Hg)]]];
    rewrite Hg, Hurl; cbn [fst snd]; try reflexivity; rewrite Hget;
    try reflexivity; case_decide; try done.
  by rewrite Hdec.
Qed.

(** X3: an APIError comes only from a response whose status is not 200 and
    whose body decoded as an error list, and it carries that list: [get]
    never returns one for a URL error, a transport error or a response of
    status 200. *)
Theorem X3_APIError_only_from_a_decoded_non_200 c path v opts w (errs : ErrorResponse) :
  (get c path v opts w).1.2 = Some (APIError errs) →
  ∃ addr r h,
    buildURL c path opts = Ok addr
    ∧ httpClient c addr = Ok r
    ∧ StatusCode r ≠ StatusOK
    ∧ Decode (Body r) (zero : ErrorResponse) (heap w) = (errs, None, h)
    ∧ (get c path v opts w).1.1 = v.
Proof.
  intros Herr.
  destruct (get_cases c path v opts w)
    as [(e & _ & Hg) | [(addr & e & _ & _ & Hg) | [(addr & r & errs' & err & h & Hurl & Hget & Hs & Hdec & Hg)
        | (addr & r & v1 & err & h & _ & _ & _ & _ & Hg)]]];
    rewrite Hg in Herr |- *; cbn [fst snd] in Herr |- *; try discriminate.
  - destruct err as [e|]; [discriminate|]. injection Herr as ->. by exists addr, r, h.
  - by destruct err.
Qed.

End request_properties.

Lemma X3_APIError_witness :
  let env := errorEnv (oneBody invalidTokenBody invalidToken) in
  let c := cannedClient 401 invalidTokenBody in
  ∃ (addr : string) (r : Response) (h : Heap),
    @buildURL env c "/api/oauth2/v2/campaigns" [] = Ok addr
    ∧ httpClient c addr = Ok r
    ∧ StatusCode r ≠ StatusOK
    ∧ Decode (Body r) (zero : ErrorResponse) (heap emptyWorld) = (invalidToken, None, h).
Proof.
  intros env c.
  destruct (@X3_APIError_only_from_a_decoded_non_200 env campaignListResponse _ c
              "/api/oauth2/v2/campaigns" zero [] emptyWorld invalidToken)
    as (addr & r & h & Hurl & Hget & Hs & Hdec & _).
  { vm_compute; reflexivity. }
  by exists addr, r, h.
Defined.

(** ** The fetch operations and their requests *)

(** Each operation returns the error of its [get] and ends in the world its
    [get] left. *)
Lemma fetch_error_and_world `{!Env} (c : Client) (id : string) (opts : list RequestOpt)
    (w : World) :
  ((GetIdentity c opts w).1.2
     = (get c "/api/oauth2/v2/identity" (zero : identityResponse) opts w).1.2
   ∧ (GetIdentity c opts w).2
     = (get c "/api/oauth2/v2/identity" (zero : identityResponse) opts w).2)
  ∧ ((GetCampaigns c opts w).1.2
       = (get c "/api/oauth2/v2/campaigns" (zero : campaignListResponse) opts w).1.2
     ∧ (GetCampaigns c opts w).2
       = (get c "/api/oauth2/v2/campaigns" (zero : campaignListResponse) opts w).2)
  ∧ ((GetCampaignByID c id opts w).1.2
       = (get c ("/api/oauth2/v2/campaigns/" +:+ id) (zero : campaignResponse) opts w).1.2
     ∧ (GetCampaignByID c id opts w).2
       = (get c ("/api/oauth2/v2/campaigns/" +:+ id) (zero : campaignResponse) opts w).2)
  ∧ ((GetMemberByID c id opts w).1.2
       = (get c ("/api/oauth2/v2/members/" +:+ id) (zero : memberResponse) opts w).1.2
     ∧ (GetMemberByID c id opts w).2
       = (get c ("/api/oauth2/v2/members/" +:+ id) (zero : memberResponse) opts w).2).
Proof.
  rewrite GetIdentity_eq, GetCampaigns_eq, GetCampaignByID_eq, GetMemberByID_eq.
  split; [|split; [|split]];
    destruct (get _ _ _ _ w) as [[resp [e|]] w']; split; reflexivity.
Qed.

Lemma get_requests_eq `{!Env} {T} `{!Unmarshal T} (c : Client) (path : string) (v : T)
    (opts : list RequestOpt) (w : World) :
  requests (get c path v opts w).2
  = match buildURL c path opts with
    | Ok addr => requests w ++ [addr]
    | Err _ => requests w
    end.
Proof.
  destruct (get_cases c path v opts w)
    as [(e & Hurl & Hg) | [(addr & e & Hurl & _ & Hg)
        | [(addr & r & errs & err & h & Hurl & _ & _ & _ & Hg)
        | (addr & r & v1 & err & h & Hurl & _ & _ & _ & Hg)]]];
    rewrite Hg, Hurl; reflexivity.
Qed.

(** X4: each of the four fetch operations sends no request when its URL
    does not parse, and otherwise exactly one, to the address [buildURL]
    built for its path, whether the transport then fails or answers;
    assembling the entity sends nothing more. *)
Theorem X4_a_fetch_sends_at_most_one_request `{!Env}
    (c : Client) (id : string) (opts : list RequestOpt) (w : World) :
  requests (GetIdentity c opts w).2
    = match buildURL c "/api/oauth2/v2/identity" opts with
      | Ok addr => requests w ++ [addr]
      | Err _ => requests w
      end
  ∧ requests (GetCampaigns c opts w).2
    = match buildURL c "/api/oauth2/v2/campaigns" opts with
      | Ok addr => requests w ++ [addr]
      | Err _ => requests w
      end
  ∧ requests (GetCampaignByID c id opts w).2
    = match buildURL c ("/api/oauth2/v2/campaigns/" +:+ id) opts with
      | Ok addr => requests w ++ [addr]
      | Err _ => requests w
      end
  ∧ requests (GetMemberByID c id opts w).2
    = match buildURL c ("/api/oauth2/v2/members/" +:+ id) opts with
      | Ok addr => requests w ++ [addr]
      | Err _ => requests w
      end.
Proof.
  destruct (fetch_error_and_world c id opts w)
    as ((_ & -> ) & (_ & ->) & (_ & ->) & (_ & ->)).
  by rewrite !get_requests_eq.
Qed.

(** X5: when the transport fails on the request of a fetch operation,
    that is, at the address [buildURL] built for its path, the operation
    returns no entity and the transport's error, unchanged; the request is
    logged and the heap is left as it was (nothing is decoded). *)
Theorem X5_a_transport_error_is_passed_on_unchanged `{!Env}
    (c : Client) (id : string) (opts : list RequestOpt) (w : World) :
  (∀ addr e, buildURL c "/api/oauth2/v2/identity" opts = Ok addr →
             httpClient c addr = Err e →
             GetIdentity c opts w = ((None, Some (Lib e)), sent addr (heap w) w))
  ∧ (∀ addr e, buildURL c "/api/oauth2/v2/campaigns" opts = Ok addr →
               httpClient c addr = Err e →
               GetCampaigns c opts w = ((None, Some (Lib e)), sent addr (heap w) w))
  ∧ (∀ addr e, buildURL c ("/api/oauth2/v2/campaigns/" +:+ id) opts = Ok addr →
               httpClient c addr = Err e →
               GetCampaignByID c id opts w = ((None, Some (Lib e)), sent addr (heap w) w))
  ∧ (∀ addr e, buildURL c ("/api/oauth2/v2/members/" +:+ id) opts = Ok addr →
               httpClient c addr = Err e →
               GetMemberByID c id opts w = ((None, Some (Lib e)), sent addr (heap w) w)).
Proof.
  rewrite GetIdentity_eq, GetCampaigns_eq, GetCampaignByID_eq, GetMemberByID_eq.
  split; [|split; [|split]]; intros addr e Hurl Hget;
    by rewrite (get_transport_Err _ _ _ _ _ _ _ Hurl Hget).
Qed.

Lemma X5_transport_error_witness :
  let env := campaignEnv creatorAlice in
  let c := downClient (TransportError "connection refused") in
  @GetCampaignByID env c "1" [] emptyWorld
  = ((None, Some (Lib (TransportError "connection refused"))),
     sent "https://www.patreon.com/api/oauth2/v2/campaigns/1" ∅ emptyWorld).
Proof.
  intros env c.
  destruct (@X5_a_transport_error_is_passed_on_unchanged env c "1" [] emptyWorld)
    as (_ & _ & Hrun & _).
  apply (Hrun "https://www.patreon.com/api/oauth2/v2/campaigns/1"
              (TransportError "connection refused")); vm_compute; reflexivity.
Defined.

(** X6: when the URL parser rejects the address of a fetch operation, the
    base URL of the client followed by the path of the operation, the
    operation returns no entity and the parser's error, and leaves the
    world as it was: no request is sent and nothing is decoded. *)
Theorem X6_a_URL_error_stops_before_any_request `{!Env}
    (c : Client) (id : string) (opts : list RequestOpt) (w : World) :
  (∀ e, ParseRequestURI (baseURL c +:+ "/api/oauth2/v2/identity") = Err e →
        GetIdentity c opts w = ((None, Some (Lib e)), w))
  ∧ (∀ e, ParseRequestURI (baseURL c +:+ "/api/oauth2/v2/campaigns") = Err e →
          GetCampaigns c opts w = ((None, Some (Lib e)), w))
  ∧ (∀ e, ParseRequestURI (baseURL c +:+ ("/api/oauth2/v2/campaigns/" +:+ id)) = Err e →
          GetCampaignByID c id opts w = ((None, Some (Lib e)), w))
  ∧ (∀ e, ParseRequestURI (baseURL c +:+ ("/api/oauth2/v2/members/" +:+ id)) = Err e →
          GetMemberByID c id opts w = ((None, Some (Lib e)), w)).
Proof.
  assert (∀ path e, ParseRequestURI (baseURL c +:+ path) = Err e →
                    buildURL c path opts = Err e) as Hurl.
  { intros path e Hparse. unfold buildURL. by rewrite Hparse. }
  rewrite GetIdentity_eq, GetCampaigns_eq, GetCampaignByID_eq, GetMemberByID_eq.
  split; [|split; [|split]]; intros e Hparse;
    by rewrite (get_buildURL_Err _ _ _ _ _ _ (Hurl _ _ Hparse)).
Qed.

Lemma X6_URL_error_witness :
  let env := withParseRequestURI (campaignEnv creatorAlice)
               (λ s, if decide (s = "https://www.patreon.com/api/oauth2/v2/campaigns/%zz")
                     then Err (UrlError "invalid URL escape")
                     else Ok {| parsed := s; RawQuery := "" |}) in
  let c := cannedClient 200 creatorAliceBody in
  @GetCampaignByID env c "%zz" [] emptyWorld
  = ((None, Some (Lib (UrlError "invalid URL escape"))), emptyWorld).
Proof.
  intros env c.
  apply (proj1 (proj2 (proj2 (@X6_a_URL_error_stops_before_any_request env c "%zz" []
                                emptyWorld)))).
  vm_compute; reflexivity.
Defined.

(** X7: on a response whose status is not 200, [GetIdentity],
    [GetCampaigns] and [GetMemberByID] return no entity, as
    [GetCampaignByID] does: the error is the decoded error list as an
    APIError when the body decodes, and the decoder's error when it does
    not; the response types are never decoded. The response is the one the
    transport gives at the address built for the path of the operation. *)
Theorem X7_the_other_operations_on_a_non_200_status `{!Env}
    (c : Client) (id : string) (opts : list RequestOpt) (w : World) :
  (∀ addr r, buildURL c "/api/oauth2/v2/identity" opts = Ok addr →
             httpClient c addr = Ok r →
             StatusCode r ≠ StatusOK →
             ∃ (errs : ErrorResponse) (err : option liberror) (h : Heap),
               Decode (Body r) (zero : ErrorResponse) (heap w) = (errs, err, h)
               ∧ GetIdentity c opts w
                 = ((None, Some (match err with Some e => Lib e | None => APIError errs end)),
                    sent addr h w))
  ∧ (∀ addr r, buildURL c "/api/oauth2/v2/campaigns" opts = Ok addr →
               httpClient c addr = Ok r →
               StatusCode r ≠ StatusOK →
               ∃ (errs : ErrorResponse) (err : option liberror) (h : Heap),
                 Decode (Body r) (zero : ErrorResponse) (heap w) = (errs, err, h)
                 ∧ GetCampaigns c opts w
                   = ((None,
                       Some (match err with Some e => Lib e | None => APIError errs end)),
                      sent addr h w))
  ∧ (∀ addr r, buildURL c ("/api/oauth2/v2/members/" +:+ id) opts = Ok addr →
               httpClient c addr = Ok r →
               StatusCode r ≠ StatusOK →
               ∃ (errs : ErrorResponse) (err : option liberror) (h : Heap),
                 Decode (Body r) (zero : ErrorResponse) (heap w) = (errs, err, h)
                 ∧ GetMemberByID c id opts w
                   = ((None,
                       Some (match err with Some e => Lib e | None => APIError errs end)),
                      sent addr h w)).
Proof.
  rewrite GetIdentity_eq, GetCampaigns_eq, GetMemberByID_eq.
  split; [|split]; intros addr r Hurl Hget Hstatus;
    rewrite (get_status_not_OK _ _ _ _ _ _ _ Hurl Hget Hstatus);
    destruct (Decode (Body r) (zero : ErrorResponse) (heap w)) as [[errs err] h];
    by exists errs, err, h.
Qed.

Lemma X7_non_200_witness :
  let env := errorEnv (oneBody invalidTokenBody invalidToken) in
  let c := cannedClient 401 invalidTokenBody in
  @GetMemberByID env c "7" [] emptyWorld
  = ((None, Some (APIError invalidToken)),
     sent "https://www.patreon.com/api/oauth2/v2/members/7" ∅ emptyWorld).
Proof.
  intros env c.
  destruct (proj2 (proj2 (@X7_the_other_operations_on_a_non_200_status env c "7" []
                            emptyWorld))
              "https://www.patreon.com/api/oauth2/v2/members/7"
              {| StatusCode := 401; Body := invalidTokenBody |})
    as (errs & err & h & Hdec & Hrun).
  - vm_compute; reflexivity.
  - reflexivity.
  - discriminate.
  - rewrite Hrun. vm_compute in Hdec. injection Hdec as <- <- <-. reflexivity.
Defined.

(** ** The query of a request *)

Lemma append_tail_inj (a : Ascii.ascii) (s1 s2 : string) :
  s1 +:+ String a "" = s2 +:+ String a "" → s1 = s2.
Proof.
  revert s2. induction s1 as [|b s1 IH]; intros [|b' s2]; cbn; intros Heq.
  - reflexivity.
  - injection Heq as _ Heq. by destruct s2.
  - injection Heq as _ Heq. by destruct s1.
  - injection Heq as -> Heq. f_equal. by apply IH.
Qed.

Lemma fieldsKey_inj (r r' : string) : fieldsKey r = fieldsKey r' → r = r'.
Proof.
  unfold fieldsKey. cbn. intros Heq. injection Heq as Heq. by apply append_tail_inj in Heq.
Qed.

Lemma fieldsKey_fresh (r : string) :
  fieldsKey r ≠ "include" ∧ fieldsKey r ≠ "page[count]" ∧ fieldsKey r ≠ "page[cursor]".
Proof. unfold fieldsKey. cbn. repeat split; discriminate. Qed.

Lemma fields_loop_other (l : list (string * string)) (q : gmap string string) (k : string) :
  (∀ r f, (r, f) ∈ l → fieldsKey r ≠ k) →
  foldl (λ q '(resource, fields), <["fields[" +:+ resource +:+ "]" := fields]> q) q l !! k
  = q !! k.
Proof.
  revert q. induction l as [|[r f] l IH]; intros q Hk; [reflexivity|].
  cbn [foldl]. rewrite IH.
  - apply lookup_insert_ne. apply (Hk r f). left.
  - intros r' f' Hin. apply (Hk r' f'). by right.
Qed.

Lemma fields_loop_set (l : list (string * string)) (q : gmap string string)
    (r f : string) :
  NoDup l.*1 → (r, f) ∈ l →
  foldl (λ q '(resource, fields), <["fields[" +:+ resource +:+ "]" := fields]> q) q l
    !! fieldsKey r = Some f.
Proof.
  revert q. induction l as [|[r0 f0] l IH]; intros q Hnodup Hin.
  { by apply elem_of_nil in Hin. }
  cbn [fmap list_fmap fst] in Hnodup. apply NoDup_cons in Hnodup as [Hfresh Hnodup].
  cbn [foldl]. apply elem_of_cons in Hin as [[= <- <-] | Hin].
  - rewrite fields_loop_other; [apply lookup_insert_eq|].
    intros r' f' Hin' Heq. apply fieldsKey_inj in Heq as ->.
    apply Hfresh, list_elem_of_fmap. by exists (r, f').
  - by apply IH.
Qed.

Lemma lookup_set_if_ne (P : Prop) `{!Decision P} (k k' v : string)
    (q : gmap string string) :
  k ≠ k' → (if decide P then <[k:=v]> q else q) !! k' = q !! k'.
Proof. intros Hne. case_decide; [by apply lookup_insert_ne | done]. Qed.

Lemma lookup_set_if_eq (P : Prop) `{!Decision P} (k v : string) (q : gmap string string) :
  (if decide P then <[k:=v]> q else q) !! k = if decide P then Some v else q !! k.
Proof. case_decide; [apply lookup_insert_eq | done]. Qed.

Section query.
Context `{!Env}.

Lemma range_elem_of {V} (m : gmap string V) (k : string) (v : V) :
  (k, v) ∈ range m ↔ m !! k = Some v.
Proof. rewrite (range_perm V m). apply elem_of_map_to_list. Qed.

Lemma range_NoDup {V} (m : gmap string V) : NoDup (range m).*1.
Proof. rewrite (range_perm V m). apply NoDup_fst_map_to_list. Qed.

(** X8: when the URL parses, the address [buildURL] returns carries the
    query with exactly these parameters, whatever the order in which the
    map of fieldsets is visited: [include] when the include list is not
    empty, [fields[r]] with its field list for every resource [r] of the
    fieldsets, [page[count]] with the size in decimal when the size is not
    0, [page[cursor]] when the cursor is not empty, and nothing else. *)
Theorem X8_the_query_holds_exactly_the_options_set
    (c : Client) (path : string) (opts : list RequestOpt) (u : URL) :
  ParseRequestURI (baseURL c +:+ path) = Ok u →
  let cfg := getOptions opts in
  ∃ q : gmap string string,
    buildURL c path opts = Ok (URL_String (setRawQuery u (Values_Encode q)))
    ∧ q !! "include"
      = (if decide (options.include cfg = "") then None else Some (options.include cfg))
    ∧ (∀ r, q !! fieldsKey r = options.fields cfg !! r)
    ∧ q !! "page[count]"
      = (if decide (options.size cfg = 0%Z) then None else Some (Itoa (options.size cfg)))
    ∧ q !! "page[cursor]"
      = (if decide (options.cursor cfg = "") then None else Some (options.cursor cfg))
    ∧ (∀ k, k ≠ "include" → k ≠ "page[count]" → k ≠ "page[cursor]" →
            (∀ r, k ≠ fieldsKey r) → q !! k = None).
Proof.
  intros Hparse cfg. eexists. split.
  { unfold buildURL. rewrite Hparse. reflexivity. }
  fold cfg.
  set (q1 := if decide (options.include cfg ≠ "")
             then <["include" := options.include cfg]> (∅ : gmap string string) else ∅).
  set (q2 := foldl _ q1 _).
  set (q3 := if decide (options.size cfg ≠ 0%Z)
             then <["page[count]" := Itoa (options.size cfg)]> q2 else q2).
  assert (∀ k, (∀ r, k ≠ fieldsKey r) → q2 !! k = q1 !! k) as Hother.
  { intros k Hk. apply fields_loop_other. intros r f _ Heq. by apply (Hk r). }
  assert (∀ r, q2 !! fieldsKey r = options.fields cfg !! r) as Hfields.
  { intros r. destruct (options.fields cfg !! r) as [f|] eqn:Hr.
    - apply fields_loop_set; [apply range_NoDup | by apply range_elem_of].
    - unfold q2. rewrite fields_loop_other.
      + unfold q1. destruct (fieldsKey_fresh r) as (Hi & _).
        by rewrite lookup_set_if_ne.
      + intros r' f' Hin Heq. apply fieldsKey_inj in Heq as ->.
        apply range_elem_of in Hin. congruence. }
  assert (∀ r, "include" ≠ fieldsKey r ∧ "page[count]" ≠ fieldsKey r
               ∧ "page[cursor]" ≠ fieldsKey r) as Hfresh.
  { intros r. destruct (fieldsKey_fresh r) as (? & ? & ?). by repeat split. }
  split; [|split; [|split; [|split]]].
  - rewrite lookup_set_if_ne by done. unfold q3. rewrite lookup_set_if_ne by done.
    rewrite Hother by apply Hfresh. unfold q1. rewrite lookup_set_if_eq.
    repeat case_decide; done.
  - intros r. destruct (fieldsKey_fresh r) as (_ & Hc & Hp).
    rewrite lookup_set_if_ne by done. unfold q3. rewrite lookup_set_if_ne by done.
    apply Hfields.
  - rewrite lookup_set_if_ne by done. unfold q3. rewrite lookup_set_if_eq.
    rewrite Hother by apply Hfresh. unfold q1. rewrite lookup_set_if_ne by done.
    repeat case_decide; done.
  - rewrite lookup_set_if_eq. unfold q3. rewrite lookup_set_if_ne by done.
    rewrite Hother by apply Hfresh. unfold q1. rewrite lookup_set_if_ne by done.
    repeat case_decide; done.
  - intros k Hi Hc Hp Hk.
    rewrite lookup_set_if_ne by done. unfold q3. rewrite lookup_set_if_ne by done.
    rewrite Hother by done. unfold q1. by rewrite lookup_set_if_ne.
Qed.

(** X9: with no option set (no include list, no fieldset, size 0, no
    cursor) the query of the address is the encoding of the empty set of
    parameters. *)
Theorem X9_no_option_gives_the_empty_query
    (c : Client) (path : string) (opts : list RequestOpt) (u : URL) :
  ParseRequestURI (baseURL c +:+ path) = Ok u →
  options.include (getOptions opts) = "" →
  options.fields (getOptions opts) = ∅ →
  options.size (getOptions opts) = 0%Z →
  options.cursor (getOptions opts) = "" →
  buildURL c path opts = Ok (URL_String (setRawQuery u (Values_Encode ∅))).
Proof.
  intros Hparse Hinclude Hfields Hsize Hcursor.
  unfold buildURL. rewrite Hparse, Hinclude, Hfields, Hsize, Hcursor.
  assert (range (∅ : gmap string string) = []) as ->.
  { apply Permutation_nil_r. rewrite (range_perm string ∅). by rewrite map_to_list_empty. }
  repeat case_decide; done.
Qed.

End query.

Lemma X8_query_witness :
  let env := campaignEnv creatorAlice in
  let c := cannedClient 200 creatorAliceBody in
  ∃ q : gmap string string,
    @buildURL env c "/api/oauth2/v2/campaigns" someOptions
      = Ok (URL_String
              (setRawQuery {| parsed := "https://www.patreon.com/api/oauth2/v2/campaigns";
                              RawQuery := "" |} (Values_Encode q)))
    ∧ q !! "include" = Some "tiers,creator"
    ∧ q !! "fields[campaign]" = Some "summary"
    ∧ q !! "fields[tier]" = Some "title"
    ∧ q !! "fields[member]" = None
    ∧ q !! "page[count]" = Some "20"
    ∧ q !! "page[cursor]" = Some "abc".
Proof.
  intros env c.
  destruct (@X8_the_query_holds_exactly_the_options_set env c "/api/oauth2/v2/campaigns"
              someOptions
              {| parsed := "https://www.patreon.com/api/oauth2/v2/campaigns"; RawQuery := "" |})
    as (q & Hurl & Hinclude & Hfields & Hcount & Hcursor & _).
  { reflexivity. }
  exists q. split; [exact Hurl|].
  split; [rewrite Hinclude; vm_compute; reflexivity|].
  split; [etrans; [exact (Hfields "campaign") | vm_compute; reflexivity]|].
  split; [etrans; [exact (Hfields "tier") | vm_compute; reflexivity]|].
  split; [etrans; [exact (Hfields "member") | vm_compute; reflexivity]|].
  split; [rewrite Hcount; vm_compute; reflexivity|].
  rewrite Hcursor; vm_compute; reflexivity.
Defined.

Lemma X9_empty_query_witness :
  let env := campaignEnv creatorAlice in
  let c := cannedClient 200 creatorAliceBody in
  @buildURL env c "/api/oauth2/v2/identity" [] = Ok "https://www.patreon.com/api/oauth2/v2/identity".
Proof.
  intros env c.
  rewrite (@X9_no_option_gives_the_empty_query env c "/api/oauth2/v2/identity" []
             {| parsed := "https://www.patreon.com/api/oauth2/v2/identity"; RawQuery := "" |});
    reflexivity.
Defined.

(** ** The assembled entities, further *)

(** X10: when the list response decodes, [GetCampaigns] returns a list
    that is not nil (also for no primary resource at all), with exactly one
    campaign per primary resource, in the order of the resources: none of
    its pointers is nil, and the campaign at each position has the id and
    the attributes (set or nil) of the resource at that position. *)
Theorem X10_GetCampaigns_returns_one_campaign_per_resource `{!Env}
    (c : Client) (opts : list RequestOpt) (w w' : World) (resp : campaignListResponse) :
  get c "/api/oauth2/v2/campaigns" (zero : campaignListResponse) opts w = ((resp, None), w') →
  ∃ campaigns : list (option Campaign),
    GetCampaigns c opts w = ((Some campaigns, None), w')
    ∧ length campaigns = len (campaignListResponse.Data resp)
    ∧ ∀ (i : nat) (item : campaignResponse.data),
        elems (campaignListResponse.Data resp) !! i = Some item →
        ∃ campaign : Campaign,
          campaigns !! i = Some (Some campaign)
          ∧ Campaign.ID campaign = campaignResponse.ID item
          ∧ Campaign.CampaignAttributes campaign = campaignResponse.Attributes item.
Proof.
  intros Hget. eexists. split.
  { rewrite GetCampaigns_eq, Hget. reflexivity. }
  split; [by rewrite length_fmap|].
  intros i item Hi. eexists. split.
  { rewrite list_lookup_fmap, Hi. reflexivity. }
  by rewrite GetCampaigns_item_eq.
Qed.

Lemma X10_GetCampaigns_witness :
  let env := aliceEnv in
  let c := aliceClient in
  let r := @get env campaignListResponse _ c "/api/oauth2/v2/campaigns" zero []
             emptyWorld in
  r.1.2 = None
  ∧ ∃ campaigns : list (option Campaign),
      @GetCampaigns env c [] emptyWorld = ((Some campaigns, None), r.2)
      ∧ length campaigns = 1.
Proof.
  intros env c r. split; [vm_compute; reflexivity|].
  destruct (@X10_GetCampaigns_returns_one_campaign_per_resource env c [] emptyWorld r.2 r.1.1)
    as (campaigns & Hrun & Hlen & _).
  { vm_compute; reflexivity. }
  exists campaigns. split; [exact Hrun|]. rewrite Hlen. vm_compute; reflexivity.
Defined.

(** X11: the two campaign operations agree: when a list response consists
    of the one primary resource of a single response, with the same
    Included Index, [GetCampaigns] returns the one-element list of the very
    campaign [GetCampaignByID] returns. *)
Theorem X11_GetCampaigns_agrees_with_GetCampaignByID `{!Env}
    (c : Client) (id : string) (opts : list RequestOpt) (w w1 w2 : World)
    (resp : campaignResponse) (lresp : campaignListResponse) :
  get c ("/api/oauth2/v2/campaigns/" +:+ id) (zero : campaignResponse) opts w
    = ((resp, None), w1) →
  get c "/api/oauth2/v2/campaigns" (zero : campaignListResponse) opts w
    = ((lresp, None), w2) →
  elems (campaignListResponse.Data lresp) = [campaignResponse.Data resp] →
  campaignListResponse.Included lresp = campaignResponse.Included resp →
  ∃ campaign : Campaign,
    GetCampaignByID c id opts w = ((Some campaign, None), w1)
    ∧ GetCampaigns c opts w = ((Some [Some campaign], None), w2).
Proof.
  intros Hget Hlget Hdata Hincluded. eexists. split.
  { rewrite GetCampaignByID_eq, Hget. reflexivity. }
  rewrite GetCampaigns_eq, Hlget. cbn zeta. by rewrite Hdata, Hincluded.
Qed.

Lemma X11_agreement_witness :
  let env := aliceEnv in
  let c := aliceClient in
  let r1 := @get env campaignResponse _ c ("/api/oauth2/v2/campaigns/" +:+ "1") zero []
              emptyWorld in
  let r2 := @get env campaignListResponse _ c "/api/oauth2/v2/campaigns" zero []
              emptyWorld in
  ∃ campaign : Campaign,
    @GetCampaignByID env c "1" [] emptyWorld = ((Some campaign, None), r1.2)
    ∧ @GetCampaigns env c [] emptyWorld = ((Some [Some campaign], None), r2.2)
    ∧ Campaign.Creator campaign = Some 1%positive.
Proof.
  intros env c r1 r2.
  destruct (@X11_GetCampaigns_agrees_with_GetCampaignByID env c "1" [] emptyWorld
              r1.2 r2.2 r1.1.1 r2.1.1) as (campaign & Hrun & Hlist).
  - vm_compute; reflexivity.
  - vm_compute; reflexivity.
  - vm_compute; reflexivity.
  - vm_compute; reflexivity.
  - exists campaign. split; [exact Hrun|]. split; [exact Hlist|].
    assert (Some campaign = (@GetCampaignByID env c "1" [] emptyWorld).1.1) as Hc
      by (by rewrite Hrun).
    vm_compute in Hc. by injection Hc as ->.
Defined.

(** X12: the entity a single-entity operation returns carries the id and
    the attributes of the primary resource unchanged; a resource without
    attributes gives an entity with nil attributes. *)
Theorem X12_id_and_attributes_are_copied `{!Env}
    (c : Client) (id : string) (opts : list RequestOpt) (w w' : World) :
  (∀ resp : identityResponse,
     get c "/api/oauth2/v2/identity" (zero : identityResponse) opts w = ((resp, None), w') →
     ∃ user : User,
       GetIdentity c opts w = ((Some user, None), w')
       ∧ User.ID user = identityResponse.ID (identityResponse.Data resp)
       ∧ User.UserAttributes user = identityResponse.Attributes (identityResponse.Data resp))
  ∧ (∀ resp : campaignResponse,
       get c ("/api/oauth2/v2/campaigns/" +:+ id) (zero : campaignResponse) opts w
         = ((resp, None), w') →
       ∃ campaign : Campaign,
         GetCampaignByID c id opts w = ((Some campaign, None), w')
         ∧ Campaign.ID campaign = campaignResponse.ID (campaignResponse.Data resp)
         ∧ Campaign.CampaignAttributes campaign
           = campaignResponse.Attributes (campaignResponse.Data resp))
  ∧ (∀ resp : memberResponse,
       get c ("/api/oauth2/v2/members/" +:+ id) (zero : memberResponse) opts w
         = ((resp, None), w') →
       ∃ member : Member,
         GetMemberByID c id opts w = ((Some member, None), w')
         ∧ Member.ID member = memberResponse.ID (memberResponse.Data resp)
         ∧ Member.MemberAttributes member
           = memberResponse.Attributes (memberResponse.Data resp)).
Proof.
  split; [|split]; intros resp Hget; eexists.
  - rewrite GetIdentity_eq, Hget. by repeat split.
  - rewrite GetCampaignByID_eq, Hget, GetCampaigns_item_eq. by repeat split.
  - rewrite GetMemberByID_eq, Hget. by repeat split.
Qed.

Lemma X12_id_witness :
  let env := memberEnv entitledToNothing in
  let c := cannedClient 200 entitledToNothingBody in
  let r := @get env memberResponse _ c ("/api/oauth2/v2/members/" +:+ "7") zero []
             emptyWorld in
  r.1.2 = None
  ∧ ∃ member : Member,
      @GetMemberByID env c "7" [] emptyWorld = ((Some member, None), r.2)
      ∧ Member.ID member = "7"
      ∧ Member.MemberAttributes member = None.
Proof.
  intros env c r. split; [vm_compute; reflexivity|].
  destruct (proj2 (proj2 (@X12_id_and_attributes_are_copied env c "7" [] emptyWorld r.2))
              r.1.1) as (member & Hrun & Hid & Hattr).
  { vm_compute; reflexivity. }
  exists member. split; [exact Hrun|].
  split; [rewrite Hid | rewrite Hattr]; vm_compute; reflexivity.
Defined.

(** X13: a to-one relationship resolves to the entry its table holds under
    the id of the identifier: the address, the campaign and the user of a
    member, the campaign of the identity and the creator of a campaign are
    each that entry when the data is present and the id is a key of the
    table, and nil when the data is null. *)
Theorem X13_to_one_reference_is_the_table_entry `{!Env}
    (c : Client) (id : string) (opts : list RequestOpt) (w w' : World) :
  (∀ resp : memberResponse,
     get c ("/api/oauth2/v2/members/" +:+ id) (zero : memberResponse) opts w
       = ((resp, None), w') →
     let rel := memberResponse.Relationships (memberResponse.Data resp) in
     let included := memberResponse.Included resp in
     ∃ member : Member,
       GetMemberByID c id opts w = ((Some member, None), w')
       ∧ (∀ d p, toOne.Data (memberResponse.Address rel) = Some d →
                 addresses included !! ID d = Some p → Member.Address member = p)
       ∧ (∀ d p, toOne.Data (memberResponse.Campaign rel) = Some d →
                 campaigns included !! ID d = Some p → Member.Campaign member = p)
       ∧ (∀ d p, toOne.Data (memberResponse.User rel) = Some d →
                 users included !! ID d = Some p → Member.User member = p)
       ∧ (toOne.Data (memberResponse.Address rel) = None → Member.Address member = nil)
       ∧ (toOne.Data (memberResponse.Campaign rel) = None → Member.Campaign member = nil)
       ∧ (toOne.Data (memberResponse.User rel) = None → Member.User member = nil))
  ∧ (∀ resp : identityResponse,
       get c "/api/oauth2/v2/identity" (zero : identityResponse) opts w = ((resp, None), w') →
       let rel := identityResponse.Relationships (identityResponse.Data resp) in
       ∃ user : User,
         GetIdentity c opts w = ((Some user, None), w')
         ∧ (∀ d p, toOne.Data (identityResponse.Campaign rel) = Some d →
                   campaigns (identityResponse.Included resp) !! ID d = Some p →
                   User.Campaign user = p)
         ∧ (toOne.Data (identityResponse.Campaign rel) = None → User.Campaign user = nil))
  ∧ (∀ resp : campaignResponse,
       get c ("/api/oauth2/v2/campaigns/" +:+ id) (zero : campaignResponse) opts w
         = ((resp, None), w') →
       let rel := campaignResponse.Relationships (campaignResponse.Data resp) in
       ∃ campaign : Campaign,
         GetCampaignByID c id opts w = ((Some campaign, None), w')
         ∧ (∀ d p, toOne.Data (campaignResponse.Creator rel) = Some d →
                   users (campaignResponse.Included resp) !! ID d = Some p →
                   Campaign.Creator campaign = p)).
Proof.
  assert (∀ k (m : gmap string (ptr k)) rel, toOne.Data rel = None → target m rel = nil)
    as Hnull.
  { intros k m rel Hrel. unfold target. by rewrite Hrel. }
  split; [|split]; intros resp Hget; cbn zeta; eexists.
  - rewrite GetMemberByID_eq, Hget. cbn zeta.
    split; [reflexivity|]. cbn [Member.Address Member.Campaign Member.User].
    repeat split; eauto using target_found.
  - rewrite GetIdentity_eq, Hget. cbn zeta.
    split; [reflexivity|]. cbn [User.Campaign].
    repeat split; eauto using target_found.
  - rewrite GetCampaignByID_eq, Hget, GetCampaigns_item_eq. cbn zeta.
    split; [reflexivity|]. cbn [Campaign.Creator]. eauto using target_found.
Qed.

Lemma X13_to_one_witness :
  let env := campaignEnv creatorAlice in
  let c := cannedClient 200 creatorAliceBody in
  let r := @get env campaignResponse _ c ("/api/oauth2/v2/campaigns/" +:+ "1") zero []
             emptyWorld in
  r.1.2 = None
  ∧ ∃ campaign : Campaign,
      @GetCampaignByID env c "1" [] emptyWorld = ((Some campaign, None), r.2)
      ∧ Campaign.Creator campaign = Some 1%positive.
Proof.
  intros env c r. split; [vm_compute; reflexivity|].
  destruct (proj2 (proj2 (@X13_to_one_reference_is_the_table_entry env c "1" []
                            emptyWorld r.2)) r.1.1) as (campaign & Hrun & Hcreator).
  { vm_compute; reflexivity. }
  exists campaign. split; [exact Hrun|].
  apply (Hcreator (ref "user" "9")); vm_compute; reflexivity.
Defined.

(** X14: the entity behind an id is shared, not copied: in the list
    [GetCampaigns] returns, two campaigns whose creator identifiers have
    the same id get the same pointer as Creator, whatever the type tags of
    the identifiers. *)
Theorem X14_campaigns_of_one_creator_share_the_user `{!Env}
    (c : Client) (opts : list RequestOpt) (w w' : World) (resp : campaignListResponse) :
  get c "/api/oauth2/v2/campaigns" (zero : campaignListResponse) opts w = ((resp, None), w') →
  ∃ campaigns : list (option Campaign),
    GetCampaigns c opts w = ((Some campaigns, None), w')
    ∧ ∀ (i j : nat) (item1 item2 : campaignResponse.data) (c1 c2 : Campaign) (d1 d2 : Data),
        elems (campaignListResponse.Data resp) !! i = Some item1 →
        elems (campaignListResponse.Data resp) !! j = Some item2 →
        campaigns !! i = Some (Some c1) →
        campaigns !! j = Some (Some c2) →
        toOne.Data (campaignResponse.Creator (campaignResponse.Relationships item1))
          = Some d1 →
        toOne.Data (campaignResponse.Creator (campaignResponse.Relationships item2))
          = Some d2 →
        ID d1 = ID d2 →
        Campaign.Creator c1 = Campaign.Creator c2.
Proof.
  intros Hget. eexists. split.
  { rewrite GetCampaigns_eq, Hget. reflexivity. }
  intros i j item1 item2 c1 c2 d1 d2 Hi Hj Hc1 Hc2 Hd1 Hd2 Hid.
  rewrite list_lookup_fmap, Hi in Hc1. rewrite list_lookup_fmap, Hj in Hc2.
  cbn in Hc1, Hc2. injection Hc1 as <-. injection Hc2 as <-.
  rewrite !GetCampaigns_item_eq. cbn [Campaign.Creator].
  unfold target. by rewrite Hd1, Hd2, Hid.
Qed.

Lemma X14_sharing_witness :
  let env := cannedEnv noTable noTable noTable twoCampaigns noTable in
  let c := cannedClient 200 twoCampaignsBody in
  let r := @get env campaignListResponse _ c "/api/oauth2/v2/campaigns" zero []
             emptyWorld in
  r.1.2 = None
  ∧ ∃ c1 c2 : Campaign,
      (@GetCampaigns env c [] emptyWorld).1.1 = Some [Some c1; Some c2]
      ∧ Campaign.ID c1 = "1" ∧ Campaign.ID c2 = "2"
      ∧ Campaign.Creator c1 = Campaign.Creator c2.
Proof.
  intros env c r. split; [vm_compute; reflexivity|].
  destruct (@X14_campaigns_of_one_creator_share_the_user env c [] emptyWorld r.2 r.1.1)
    as (campaigns & Hrun & Hshare).
  { vm_compute; reflexivity. }
  assert (Some campaigns = (@GetCampaigns env c [] emptyWorld).1.1) as Hc by (by rewrite Hrun).
  vm_compute in Hc. injection Hc as ->.
  eexists _, _. split; [rewrite Hrun; reflexivity|].
  split; [reflexivity|]. split; [reflexivity|].
  eapply (Hshare 0 1 _ _ _ _ (ref "user" "9") (ref "user" "9")); vm_compute; reflexivity.
Defined.

Lemma grow_nil_iff {A} (l : list A) : grow (None : slice A) l = None ↔ l = [].
Proof. destruct l; [done|]. split; discriminate. Qed.

Lemma range_values_nil_iff `{!Env} {V} (m : gmap string V) : (range m).*2 = [] ↔ m = ∅.
Proof.
  split.
  - intros Hnil. apply fmap_nil_inv in Hnil. apply map_to_list_empty_iff.
    apply Permutation_nil_r. by rewrite <- (range_perm V m), Hnil.
  - intros ->. assert (range (∅ : gmap string V) = []) as ->; [|done].
    apply Permutation_nil_r. by rewrite (range_perm V ∅), map_to_list_empty.
Qed.

(** X16: a collection of an assembled entity is the nil slice exactly when
    nothing was appended to it: the entitled tiers of a member when no tier
    is included, the memberships of the identity when no membership is
    included, and the benefits, goals and tiers of a campaign when the
    relationship has no identifier (null or empty data); with at least one
    identifier the collection is not nil, even if every identifier is
    dangling. *)
Theorem X16_a_collection_is_nil_exactly_when_nothing_was_appended `{!Env}
    (c : Client) (id : string) (opts : list RequestOpt) (w w' : World) :
  (∀ resp : memberResponse,
     get c ("/api/oauth2/v2/members/" +:+ id) (zero : memberResponse) opts w
       = ((resp, None), w') →
     ∃ member : Member,
       GetMemberByID c id opts w = ((Some member, None), w')
       ∧ (Member.CurrentlyEntitledTiers member = None
          ↔ tiers (memberResponse.Included resp) = ∅))
  ∧ (∀ resp : identityResponse,
       get c "/api/oauth2/v2/identity" (zero : identityResponse) opts w = ((resp, None), w') →
       ∃ user : User,
         GetIdentity c opts w = ((Some user, None), w')
         ∧ (User.Memberships user = None
            ↔ memberships (identityResponse.Included resp) = ∅))
  ∧ (∀ resp : campaignResponse,
       get c ("/api/oauth2/v2/campaigns/" +:+ id) (zero : campaignResponse) opts w
         = ((resp, None), w') →
       let rel := campaignResponse.Relationships (campaignResponse.Data resp) in
       ∃ campaign : Campaign,
         GetCampaignByID c id opts w = ((Some campaign, None), w')
         ∧ (Campaign.Benefits campaign = None
            ↔ len (toMany.Data (campaignResponse.Benefits rel)) = 0)
         ∧ (Campaign.Goals campaign = None
            ↔ len (toMany.Data (campaignResponse.Goals rel)) = 0)
         ∧ (Campaign.Tiers campaign = None
            ↔ len (toMany.Data (campaignResponse.Tiers rel)) = 0)).
Proof.
  assert (∀ k (m : gmap string (ptr k)) rel,
            grow None (slots m rel) = None ↔ len (toMany.Data rel) = 0) as Hslots.
  { intros k m rel. rewrite grow_nil_iff, <- (length_slots m rel).
    by destruct (slots m rel). }
  split; [|split]; intros resp Hget; cbn zeta; eexists.
  - rewrite GetMemberByID_eq, Hget. cbn zeta. split; [reflexivity|].
    cbn [Member.CurrentlyEntitledTiers]. by rewrite grow_nil_iff, range_values_nil_iff.
  - rewrite GetIdentity_eq, Hget. cbn zeta. split; [reflexivity|].
    cbn [User.Memberships]. by rewrite grow_nil_iff, range_values_nil_iff.
  - rewrite GetCampaignByID_eq, Hget, GetCampaigns_item_eq. cbn zeta.
    split; [reflexivity|]. cbn [Campaign.Benefits Campaign.Goals Campaign.Tiers].
    repeat split; apply Hslots.
Qed.

Lemma X16_nil_collection_witness :
  let env := campaignEnv danglingBenefit in
  let c := cannedClient 200 danglingBenefitBody in
  let r := @get env campaignResponse _ c ("/api/oauth2/v2/campaigns/" +:+ "1") zero []
             emptyWorld in
  r.1.2 = None
  ∧ ∃ campaign : Campaign,
      @GetCampaignByID env c "1" [] emptyWorld = ((Some campaign, None), r.2)
      ∧ Campaign.Benefits campaign ≠ None
      ∧ Campaign.Tiers campaign = None.
Proof.
  intros env c r. split; [vm_compute; reflexivity|].
  destruct (proj2 (proj2 (@X16_a_collection_is_nil_exactly_when_nothing_was_appended
                            env c "1" [] emptyWorld r.2)) r.1.1)
    as (campaign & Hrun & Hbenefits & _ & Htiers).
  { vm_compute; reflexivity. }
  exists campaign. split; [exact Hrun|]. split.
  - intros Hnil. apply Hbenefits in Hnil. vm_compute in Hnil. discriminate.
  - apply Htiers. vm_compute; reflexivity.
Defined.

(** ** The constructor *)

(** X15: [NewClient] never leaves the client without a transport: given
    nil it takes the default client, exactly as if the default client had
    been passed, and otherwise the client it is given, which is what the
    method [Client] returns; the base URL is always that of Patreon, so a
    request of the new client parses that base URL followed by the path. *)
Theorem X15_NewClient_falls_back_to_the_default_client `{!Env}
    (DefaultClient : string → result Response) (h : option (string → result Response))
    (path : string) (opts : list RequestOpt) :
  Client.Client (NewClient DefaultClient h) = default DefaultClient h
  ∧ NewClient DefaultClient None = NewClient DefaultClient (Some DefaultClient)
  ∧ baseURL (NewClient DefaultClient h) = "https://www.patreon.com"
  ∧ (∀ e, ParseRequestURI ("https://www.patreon.com" +:+ path) = Err e →
          buildURL (NewClient DefaultClient h) path opts = Err e).
Proof.
  split; [destruct h; reflexivity|].
  split; [reflexivity|]. split; [reflexivity|].
  intros e Hparse. unfold buildURL. cbn [NewClient baseURL]. unfold BaseURL.
  by rewrite Hparse.
Qed.

Lemma X15_NewClient_witness :
  let env := withParseRequestURI (campaignEnv creatorAlice)
               (λ _, Err (UrlError "invalid URI for request")) in
  @buildURL env (NewClient (λ _, Err (TransportError "no network")) None)
    "/api/oauth2/v2/identity" [] = Err (UrlError "invalid URI for request").
Proof.
  intros env.
  apply (@X15_NewClient_falls_back_to_the_default_client env
           (λ _, Err (TransportError "no network")) None "/api/oauth2/v2/identity" []).
  reflexivity.
Defined.

(** ** The campaigns of a list *)

(** X17: every campaign of the list [GetCampaigns] returns is resolved
    against the one Included Index of the response as a single campaign is:
    its creator is the entry of the users table (nil for null data or a
    dangling id), and each of its benefits, goals and tiers has one slot
    per identifier, in order, holding the table entry or nil for a dangling
    identifier. *)
Theorem X17_each_campaign_of_the_list_is_resolved_slot_by_slot `{!Env}
    (c : Client) (opts : list RequestOpt) (w w' : World) (resp : campaignListResponse)
    (i : nat) (item : campaignResponse.data) :
  get c "/api/oauth2/v2/campaigns" (zero : campaignListResponse) opts w = ((resp, None), w') →
  elems (campaignListResponse.Data resp) !! i = Some item →
  let included := campaignListResponse.Included resp in
  let rel := campaignResponse.Relationships item in
  ∃ (campaigns : list (option Campaign)) (campaign : Campaign),
    GetCampaigns c opts w = ((Some campaigns, None), w')
    ∧ campaigns !! i = Some (Some campaign)
    ∧ Campaign.Creator campaign
      = match toOne.Data (campaignResponse.Creator rel) with
        | Some d => index nil (users included) (ID d)
        | None => nil
        end
    ∧ elems (Campaign.Benefits campaign)
      = (λ d, index nil (benefits included) (ID d))
          <$> elems (toMany.Data (campaignResponse.Benefits rel))
    ∧ elems (Campaign.Goals campaign)
      = (λ d, index nil (goals included) (ID d))
          <$> elems (toMany.Data (campaignResponse.Goals rel))
    ∧ elems (Campaign.Tiers campaign)
      = (λ d, index nil (tiers included) (ID d))
          <$> elems (toMany.Data (campaignResponse.Tiers rel)).
Proof.
  intros Hget Hi included rel.
  destruct (GetCampaigns_one_slot_per_identifier c opts w w' resp Hget)
    as (campaigns & Hrun & Hall).
  destruct (Forall2_lookup_l _ _ _ _ _ Hall Hi)
    as (oc & Hoc & campaign & -> & Hcreator & Hbenefits & Hgoals & Htiers).
  exists campaigns, campaign. by repeat split.
Qed.

Lemma X17_list_witness :
  let env := cannedEnv noTable noTable noTable danglingBenefitList noTable in
  let c := cannedClient 200 danglingBenefitListBody in
  let r := @get env campaignListResponse _ c "/api/oauth2/v2/campaigns" zero []
             emptyWorld in
  r.1.2 = None
  ∧ ∃ (campaigns : list (option Campaign)) (campaign : Campaign),
      @GetCampaigns env c [] emptyWorld = ((Some campaigns, None), r.2)
      ∧ campaigns !! 0 = Some (Some campaign)
      ∧ elems (Campaign.Benefits campaign) = [Some 1%positive; None; Some 2%positive].
Proof.
  intros env c r. split; [vm_compute; reflexivity|].
  destruct (@X17_each_campaign_of_the_list_is_resolved_slot_by_slot env c [] emptyWorld
              r.2 r.1.1 0
              (campaignData "1" None
                 (Some [ref "benefit" "a"; ref "benefit" "b"; ref "benefit" "c"]) None None))
    as (campaigns & campaign & Hrun & Hfirst & _ & Hbenefits & _).
  - vm_compute; reflexivity.
  - vm_compute; reflexivity.
  - exists campaigns, campaign. split; [exact Hrun|]. split; [exact Hfirst|].
    rewrite Hbenefits. vm_compute; reflexivity.
Defined.
